(** * Little's Law formula library: validation and formulas

    Shallow embedding of
    [src/FactoryOps/Manufacturing_Science/littleslaw/Py00001.py]
    (class [LittlesLaw]: one private validator and seven static methods).

    Python values are embedded as an inductive type that keeps the
    distinctions the code observes: [bool] is a subclass of [int], [int] and
    [float] are different types, every other object is rejected by
    [isinstance].  Integers are unbounded ([Z]).  A float is an IEEE-754
    binary64 number, embedded as a [spec_float] of the standard library
    (signed zeros, infinities, NaN, finite numbers [m * 2^e]) with the
    library's round-to-nearest-even arithmetic at precision 53 and maximal
    exponent 1024; the doubles are the [spec_float]s that satisfy
    [valid_binary], and every statement below holds for all [spec_float]s.
    Exceptions are embedded as an error monad; the arithmetic raises
    [OverflowError] and [ZeroDivisionError] where CPython does, and
    formatting an integer of more than 4300 digits raises [ValueError] as
    CPython (3.11, default settings) does. *)

From Stdlib Require Import ZArith QArith Bool List String Lia SpecFloat.
Import ListNotations.
Local Open Scope string_scope.
Local Open Scope Z_scope.

(** ** Python values *)

#[local] Set Warnings "-register-all".

Inductive value : Type :=
| VNone
| VBool (b : bool)
| VInt (z : Z)
| VFloat (f : spec_float)
| VStr (s : string)
| VList (items : list value)
| VDict (entries : list (string * value)).

Inductive pytype : Type :=
| TNoneType | Tbool | Tint | Tfloat | Tstr | Tlist | Tdict.

(** [type(v)] *)
Definition type_of (v : value) : pytype :=
  match v with
  | VNone => TNoneType
  | VBool _ => Tbool
  | VInt _ => Tint
  | VFloat _ => Tfloat
  | VStr _ => Tstr
  | VList _ => Tlist
  | VDict _ => Tdict
  end.

(** [t.__name__] *)
Definition type_name (t : pytype) : string :=
  match t with
  | TNoneType => "NoneType"
  | Tbool => "bool"
  | Tint => "int"
  | Tfloat => "float"
  | Tstr => "str"
  | Tlist => "list"
  | Tdict => "dict"
  end.

(** [issubclass(t, u)]: every type is its own subclass, and [bool] derives
    from [int]. *)
Definition issubclass (t u : pytype) : bool :=
  match t, u with
  | TNoneType, TNoneType => true
  | Tbool, Tbool => true
  | Tbool, Tint => true
  | Tint, Tint => true
  | Tfloat, Tfloat => true
  | Tstr, Tstr => true
  | Tlist, Tlist => true
  | Tdict, Tdict => true
  | _, _ => false
  end.

(** [isinstance(v, (t1, ..., tn))] *)
Definition isinstance (v : value) (ts : list pytype) : bool :=
  existsb (issubclass (type_of v)) ts.

(** ** Exceptions and f-strings

    An f-string is kept as the sequence of its literal parts and of the
    values substituted into its replacement fields. *)

Inductive piece : Type :=
| Lit (s : string)
| Fmt (v : value).

Definition fstring := list piece.

Inductive exn : Type :=
| TypeError (msg : fstring)
| ValueError (msg : fstring)
| ZeroDivisionError (msg : fstring)
| OverflowError (msg : fstring).

Inductive result (A : Type) : Type :=
| Ok (a : A)
| Raise (e : exn).
Arguments Ok {A} a.
Arguments Raise {A} e.

Definition bind {A B : Type} (m : result A) (k : A -> result B) : result B :=
  match m with
  | Ok a => k a
  | Raise e => Raise e
  end.

Declare Scope py_scope.
Delimit Scope py_scope with py.
Notation "x <- m ;; k" := (bind m (fun x => k))
  (at level 61, m at next level, right associativity) : py_scope.
Notation "m ;; k" := (bind m (fun _ => k))
  (at level 61, right associativity) : py_scope.
Local Open Scope py_scope.

(** [str(v)] inside an f-string.  CPython refuses to convert an integer of
    more than [sys.get_int_max_str_digits()] = 4300 decimal digits, also
    inside a list or a dict. *)
Definition int_max_str_digits : Z := 4300.

Definition int_str_bound : Z := 10 ^ int_max_str_digits.

Fixpoint convertible (v : value) : bool :=
  match v with
  | VInt z => Z.abs z <? int_str_bound
  | VList items => forallb convertible items
  | VDict entries => forallb (fun kv => convertible (snd kv)) entries
  | _ => true
  end.

Definition digits_limit : exn :=
  ValueError [Lit "Exceeds the limit (4300 digits) for integer string conversion; use sys.set_int_max_str_digits() to increase the limit"].

Definition format (v : value) : result piece :=
  if convertible v then Ok (Fmt v) else Raise digits_limit.

(** ** Floats *)

Definition prec : Z := 53.
Definition emax : Z := 1024.

Definition fmul : spec_float -> spec_float -> spec_float := SFmul prec emax.
Definition fadd : spec_float -> spec_float -> spec_float := SFadd prec emax.
Definition fdiv : spec_float -> spec_float -> spec_float := SFdiv prec emax.

(** The double nearest to the integer [z] (an infinity when [z] is beyond
    the doubles). *)
Definition nearest_double (z : Z) : spec_float :=
  binary_normalize prec emax z 0 false.

(** The integer [z] as an unrounded binary number [z * 2^0]. *)
Definition Z2SF (z : Z) : spec_float :=
  match z with
  | Z0 => S754_zero false
  | Zpos p => S754_finite false p 0
  | Zneg p => S754_finite true p 0
  end.

(** [b == 0.0] on a float. *)
Definition float_is_zero (f : spec_float) : bool :=
  match f with
  | S754_zero _ => true
  | _ => false
  end.

(** The number a value denotes, for comparisons: Python compares ints and
    floats by their exact values. *)
Inductive xreal : Type :=
| XNaN
| XNegInf
| XFin (q : Q)
| XPosInf.

(** [z * 2^e] *)
Definition scale (z e : Z) : Q :=
  match e with
  | Zneg p => Qmake z (2 ^ p)
  | _ => inject_Z (z * 2 ^ e)
  end.

Definition SF2X (f : spec_float) : xreal :=
  match f with
  | S754_zero _ => XFin 0
  | S754_infinity s => if s then XNegInf else XPosInf
  | S754_nan => XNaN
  | S754_finite s m e => XFin (scale (if s then Zneg m else Zpos m) e)
  end.

Definition xcompare (a b : xreal) : option comparison :=
  match a, b with
  | XNaN, _ | _, XNaN => None
  | XNegInf, XNegInf => Some Eq
  | XNegInf, _ => Some Lt
  | _, XNegInf => Some Gt
  | XPosInf, XPosInf => Some Eq
  | XPosInf, _ => Some Gt
  | _, XPosInf => Some Lt
  | XFin p, XFin q => Some (Qcompare p q)
  end.

(** ** Numbers

    The numeric tower as far as the code uses it: [bool] and [int] operands
    behave as integers, a [float] operand makes the result a float, and true
    division always gives a float. *)

Inductive num : Type :=
| NInt (z : Z)
| NFloat (f : spec_float).

Definition as_num (v : value) : option num :=
  match v with
  | VBool b => Some (NInt (if b then 1 else 0))
  | VInt z => Some (NInt z)
  | VFloat f => Some (NFloat f)
  | _ => None
  end.

Definition num_X (n : num) : xreal :=
  match n with
  | NInt z => XFin (inject_Z z)
  | NFloat f => SF2X f
  end.

(** The conversion of a number to a float that Python applies to an
    integer operand when the other operand is a float. *)
Definition to_float (n : num) : result spec_float :=
  match n with
  | NFloat f => Ok f
  | NInt z =>
      match nearest_double z with
      | S754_infinity _ =>
          Raise (OverflowError [Lit "int too large to convert to float"])
      | f => Ok f
      end
  end.

Definition unsupported (op : string) (a b : value) : exn :=
  TypeError [Lit "unsupported operand type(s) for "; Lit op; Lit ": '";
             Fmt (VStr (type_name (type_of a))); Lit "' and '";
             Fmt (VStr (type_name (type_of b))); Lit "'"].

Definition not_supported (op : string) (a b : value) : exn :=
  TypeError [Lit "'"; Lit op; Lit "' not supported between instances of '";
             Fmt (VStr (type_name (type_of a))); Lit "' and '";
             Fmt (VStr (type_name (type_of b))); Lit "'"].

(** [a < b], [a <= b], [a > b]: numbers are compared by value across [int]
    and [float], a NaN compares false; ordering a non-number against a
    number raises. *)
Definition py_lt (a b : value) : result bool :=
  match as_num a, as_num b with
  | Some x, Some y =>
      Ok match xcompare (num_X x) (num_X y) with
         | Some Lt => true
         | _ => false
         end
  | _, _ => Raise (not_supported "<" a b)
  end.

Definition py_le (a b : value) : result bool :=
  match as_num a, as_num b with
  | Some x, Some y =>
      Ok match xcompare (num_X x) (num_X y) with
         | Some Lt | Some Eq => true
         | _ => false
         end
  | _, _ => Raise (not_supported "<=" a b)
  end.

Definition py_gt (a b : value) : result bool :=
  match as_num a, as_num b with
  | Some x, Some y =>
      Ok match xcompare (num_X x) (num_X y) with
         | Some Gt => true
         | _ => false
         end
  | _, _ => Raise (not_supported ">" a b)
  end.

(** [a == b] against a number: equal numeric value; a non-number is never
    equal to a number. *)
Definition py_eq (a b : value) : bool :=
  match as_num a, as_num b with
  | Some x, Some y =>
      match xcompare (num_X x) (num_X y) with
      | Some Eq => true
      | _ => false
      end
  | _, _ => false
  end.

(** [a * b] and [a + b] on numbers: exact on two integers, otherwise the
    IEEE operation on the operands converted to float.  Operands of other
    types never reach the arithmetic of this module (sequence repetition
    and concatenation are left out). *)
Definition py_mul (a b : value) : result value :=
  match as_num a, as_num b with
  | Some (NInt x), Some (NInt y) => Ok (VInt (x * y))
  | Some x, Some y =>
      fx <- to_float x ;;
      fy <- to_float y ;;
      Ok (VFloat (fmul fx fy))
  | _, _ => Raise (unsupported "*" a b)
  end.

Definition py_add (a b : value) : result value :=
  match as_num a, as_num b with
  | Some (NInt x), Some (NInt y) => Ok (VInt (x + y))
  | Some x, Some y =>
      fx <- to_float x ;;
      fy <- to_float y ;;
      Ok (VFloat (fadd fx fy))
  | _, _ => Raise (unsupported "+" a b)
  end.

(** [a / b]: true division.  On two integers the correctly rounded quotient
    of the exact integers; otherwise the IEEE division of the operands
    converted to float.  A zero divisor raises. *)
Definition py_truediv (a b : value) : result value :=
  match as_num a, as_num b with
  | Some (NInt x), Some (NInt y) =>
      if y =? 0 then Raise (ZeroDivisionError [Lit "division by zero"])
      else
        match fdiv (Z2SF x) (Z2SF y) with
        | S754_infinity _ =>
            Raise (OverflowError
                     [Lit "integer division result too large for a float"])
        | q => Ok (VFloat q)
        end
  | Some x, Some y =>
      fx <- to_float x ;;
      fy <- to_float y ;;
      if float_is_zero fy
      then Raise (ZeroDivisionError [Lit "float division by zero"])
      else Ok (VFloat (fdiv fx fy))
  | _, _ => Raise (unsupported "/" a b)
  end.

(** The float the text of the module writes: [1.0]. *)
Definition float_1 : spec_float :=
  S754_finite false 4503599627370496 (-52).

(** ** The class [LittlesLaw] *)

Module LittlesLaw.

(** [_validate_input(value, name, allow_zero=True)]; returns [None]. *)
Definition _validate_input (value : value) (name : string) (allow_zero : bool)
  : result unit :=
  if negb (isinstance value [Tint; Tfloat]) then
    Raise (TypeError [Lit "Invalid type for '"; Fmt (VStr name);
                      Lit "'. Expected int or float, got ";
                      Fmt (VStr (type_name (type_of value))); Lit "."])
  else
    negative <- py_lt value (VInt 0) ;;
    if negative then
      shown <- format value ;;
      Raise (ValueError [Lit "Invalid value for '"; Fmt (VStr name);
                         Lit "'. Value cannot be negative ("; shown;
                         Lit ")."])
    else if negb allow_zero && py_eq value (VInt 0) then
      Raise (ValueError [Lit "Invalid value for '"; Fmt (VStr name);
                         Lit "'. Value cannot be zero (dividing by zero)."])
    else Ok tt.

Definition calculate_wip (throughput cycle_time : value) : result value :=
  _validate_input throughput "throughput" true ;;
  _validate_input cycle_time "cycle_time" true ;;
  py_mul throughput cycle_time.

Definition calculate_cycle_time (wip throughput : value) : result value :=
  _validate_input wip "wip" true ;;
  _validate_input throughput "throughput" false ;;
  py_truediv wip throughput.

Definition calculate_throughput (wip cycle_time : value) : result value :=
  _validate_input wip "wip" true ;;
  _validate_input cycle_time "cycle_time" false ;;
  py_truediv wip cycle_time.

Definition calculate_station_utilization
  (station_throughput station_cycle_time number_of_machines : value)
  : result value :=
  _validate_input station_throughput "station_throughput" true ;;
  _validate_input station_cycle_time "station_cycle_time" true ;;
  bad <- (if negb (isinstance number_of_machines [Tint]) then Ok true
          else py_le number_of_machines (VInt 0)) ;;
  if bad then
    shown <- format number_of_machines ;;
    Raise (ValueError [Lit "Number of machines must be a positive integer. Got ";
                       shown; Lit "."])
  else
    station_wip <- py_mul station_throughput station_cycle_time ;;
    utilization <- py_truediv station_wip number_of_machines ;;
    unstable <- py_gt utilization (VFloat float_1) ;;
    (if unstable then Ok tt else Ok tt) ;;
    utilization_pct <- py_mul utilization (VInt 100) ;;
    Ok (VDict [("station_wip", station_wip);
               ("utilization", utilization);
               ("utilization_pct", utilization_pct)]).

(** [fgi] has the default [0]. *)
Definition fgi_default : value := VInt 0.

Definition calculate_inventory_turns (throughput wip fgi : value)
  : result value :=
  _validate_input throughput "throughput" true ;;
  _validate_input wip "wip" true ;;
  _validate_input fgi "fgi" true ;;
  total_inventory <- py_add wip fgi ;;
  if py_eq total_inventory (VInt 0) then
    Raise (ValueError
      [Lit "Total inventory (WIP + FGI) cannot be zero when calculating turns."])
  else py_truediv throughput total_inventory.

Definition calculate_planned_inventory (throughput planned_days : value)
  : result value :=
  _validate_input throughput "throughput" true ;;
  _validate_input planned_days "planned_days" true ;;
  py_mul planned_days throughput.

Definition financial_cycle_time (wip_value cost_of_goods_sold : value)
  : result value :=
  _validate_input wip_value "wip_value" true ;;
  _validate_input cost_of_goods_sold "cost_of_goods_sold" false ;;
  py_truediv wip_value cost_of_goods_sold.

End LittlesLaw.

(** ** Calls

    A call of one of the seven public operations, with its arguments. *)

Inductive call : Type :=
| CalculateWip (throughput cycle_time : value)
| CalculateCycleTime (wip throughput : value)
| CalculateThroughput (wip cycle_time : value)
| CalculateStationUtilization
    (station_throughput station_cycle_time number_of_machines : value)
| CalculateInventoryTurns (throughput wip fgi : value)
| CalculatePlannedInventory (throughput planned_days : value)
| FinancialCycleTime (wip_value cost_of_goods_sold : value).

Definition run (c : call) : result value :=
  match c with
  | CalculateWip t ct => LittlesLaw.calculate_wip t ct
  | CalculateCycleTime w t => LittlesLaw.calculate_cycle_time w t
  | CalculateThroughput w ct => LittlesLaw.calculate_throughput w ct
  | CalculateStationUtilization t ct m =>
      LittlesLaw.calculate_station_utilization t ct m
  | CalculateInventoryTurns t w f => LittlesLaw.calculate_inventory_turns t w f
  | CalculatePlannedInventory t d => LittlesLaw.calculate_planned_inventory t d
  | FinancialCycleTime w c => LittlesLaw.financial_cycle_time w c
  end.

(** ** Vocabulary of the specification *)

(** A numeric argument: an [int] or a [float] (so also a [bool]). *)
Definition numeric (v : value) : Prop := isinstance v [Tint; Tfloat] = true.

(** The order of a value and an integer constant; [None] for a NaN and for
    a value that is not a number. *)
Definition compare_int (v : value) (z : Z) : option comparison :=
  match as_num v with
  | Some n => xcompare (num_X n) (XFin (inject_Z z))
  | None => None
  end.

Definition is_negative (v : value) : Prop := compare_int v 0 = Some Lt.
Definition is_zero (v : value) : Prop := compare_int v 0 = Some Eq.
Definition is_positive (v : value) : Prop := compare_int v 0 = Some Gt.

(** [v >= 0] *)
Definition is_nonnegative (v : value) : Prop := is_positive v \/ is_zero v.

(** A Quantity as the validator accepts it: a number that is not negative
    (a NaN is not). *)
Definition quantity (v : value) : Prop := numeric v /\ ~ is_negative v.

(** A float whose sign bit, where it counts, is clear: not a negative
    number and not minus infinity. *)
Definition sign_clear (f : spec_float) : Prop :=
  match f with
  | S754_infinity true | S754_finite true _ _ => False
  | _ => True
  end.

(** A number that is not negative, as an operand of the arithmetic. *)
Definition not_negative_num (n : num) : Prop :=
  match n with
  | NInt z => 0 <= z
  | NFloat f => sign_clear f
  end.

(** The integer an [int] or a [bool] is. *)
Definition int_value (v : value) : option Z :=
  match v with
  | VBool b => Some (if b then 1 else 0)
  | VInt z => Some z
  | _ => None
  end.

(** A machine count: an [int] that is at least 1. *)
Definition machine_count (v : value) : Prop :=
  exists z, int_value v = Some z /\ 1 <= z.

Definition TypeKind {A : Type} (r : result A) : Prop :=
  match r with Raise (TypeError _) => True | _ => False end.

Definition RangeKind {A : Type} (r : result A) : Prop :=
  match r with Raise (ValueError _) => True | _ => False end.

Definition Overflows {A : Type} (r : result A) : Prop :=
  match r with Raise (OverflowError _) => True | _ => False end.

Definition message (e : exn) : fstring :=
  match e with
  | TypeError m | ValueError m | ZeroDivisionError m | OverflowError m => m
  end.

(** [contains n s]: [n] occurs in [s] as a substring. *)
Fixpoint contains (n s : string) : bool :=
  prefix n s ||
  match s with
  | EmptyString => false
  | String _ s' => contains n s'
  end.

(** The text of the message names [n]: [n] occurs in a literal part or in a
    substituted string. *)
Definition names (n : string) (e : exn) : bool :=
  existsb (fun p => match p with
                    | Lit s | Fmt (VStr s) => contains n s
                    | Fmt _ => false
                    end) (message e).

(** The message shows the value [v]: [v] is substituted into it. *)
Definition shows (v : value) (e : exn) : Prop := In (Fmt v) (message e).

(** The Quantity parameters of a call in the order of the signature: name,
    whether zero is allowed (it is not for a divisor), and argument. *)
Definition quantities (c : call) : list (string * bool * value) :=
  match c with
  | CalculateWip t ct => [("throughput", true, t); ("cycle_time", true, ct)]
  | CalculateCycleTime w t => [("wip", true, w); ("throughput", false, t)]
  | CalculateThroughput w ct => [("wip", true, w); ("cycle_time", false, ct)]
  | CalculateStationUtilization t ct _ =>
      [("station_throughput", true, t); ("station_cycle_time", true, ct)]
  | CalculateInventoryTurns t w f =>
      [("throughput", true, t); ("wip", true, w); ("fgi", true, f)]
  | CalculatePlannedInventory t d =>
      [("throughput", true, t); ("planned_days", true, d)]
  | FinancialCycleTime w c =>
      [("wip_value", true, w); ("cost_of_goods_sold", false, c)]
  end.

Definition validate (p : string * bool * value) : result unit :=
  let '(name, allow_zero, v) := p in LittlesLaw._validate_input v name allow_zero.

(** The validator passes on [p]. *)
Definition valid (p : string * bool * value) : Prop := validate p = Ok tt.

(** The validator run over a list of parameters, stopping at the first
    failure. *)
Fixpoint validate_all (ps : list (string * bool * value)) : result unit :=
  match ps with
  | [] => Ok tt
  | p :: ps' => validate p ;; validate_all ps'
  end.

(** Every parameter of a call with its argument. *)
Definition arguments (c : call) : list (string * value) :=
  match c with
  | CalculateWip t ct => [("throughput", t); ("cycle_time", ct)]
  | CalculateCycleTime w t => [("wip", w); ("throughput", t)]
  | CalculateThroughput w ct => [("wip", w); ("cycle_time", ct)]
  | CalculateStationUtilization t ct m =>
      [("station_throughput", t); ("station_cycle_time", ct);
       ("number_of_machines", m)]
  | CalculateInventoryTurns t w f => [("throughput", t); ("wip", w); ("fgi", f)]
  | CalculatePlannedInventory t d => [("throughput", t); ("planned_days", d)]
  | FinancialCycleTime w c => [("wip_value", w); ("cost_of_goods_sold", c)]
  end.

(** The parameters the formulas divide by. *)
Definition divisor (c : call) (name : string) : Prop :=
  match c with
  | CalculateCycleTime _ _ => name = "throughput"
  | CalculateThroughput _ _ => name = "cycle_time"
  | FinancialCycleTime _ _ => name = "cost_of_goods_sold"
  | _ => False
  end.

(** The common shape of the three operations that divide: validate the
    dividend, validate the divisor with zero forbidden, divide. *)
Definition validated_quotient (dividend_name divisor_name : string)
  (a b : value) : result value :=
  LittlesLaw._validate_input a dividend_name true ;;
  LittlesLaw._validate_input b divisor_name false ;;
  py_truediv a b.

(** The error raised for a bad machine count: its message shows the
    argument, unless the argument cannot be converted to text. *)
Definition machine_count_error (m : value) : exn :=
  match format m with
  | Ok shown =>
      ValueError [Lit "Number of machines must be a positive integer. Got ";
                  shown; Lit "."]
  | Raise e => e
  end.

(** The checks that come after the validation of the Quantity parameters:
    the machine count and the total inventory. *)
Inductive late_failure : call -> exn -> Prop :=
| bad_machine_count t ct m :
    ~ machine_count m ->
    late_failure (CalculateStationUtilization t ct m) (machine_count_error m)
| no_inventory t w f total :
    py_add w f = Ok total -> py_eq total (VInt 0) = true ->
    late_failure (CalculateInventoryTurns t w f)
      (ValueError
         [Lit "Total inventory (WIP + FGI) cannot be zero when calculating turns."]).

(** The doubles used in the worked examples, as [m * 2^e]. *)
Definition float_0_25 : spec_float := S754_finite false 4503599627370496 (-54).
Definition float_0_5 : spec_float := S754_finite false 4503599627370496 (-53).
Definition float_1_5 : spec_float := S754_finite false 6755399441055744 (-52).
Definition float_2_5 : spec_float := S754_finite false 5629499534213120 (-51).
Definition float_4 : spec_float := S754_finite false 4503599627370496 (-50).
Definition float_100 : spec_float := S754_finite false 7036874417766400 (-46).
Definition float_400 : spec_float := S754_finite false 7036874417766400 (-44).
(** [5e-324], the least positive double. *)
Definition float_tiny : spec_float := S754_finite false 1 (-1074).

(** * Properties *)

(** ** Rounding *)

Lemma digits2_pos_size (p : positive) : digits2_pos p = Pos.size p.
Proof. induction p; cbn; congruence. Qed.

Lemma Zdigits2_log2 (p : positive) : Zdigits2 (Zpos p) = Z.log2 (Zpos p) + 1.
Proof.
  cbn [Zdigits2]. rewrite digits2_pos_size.
  destruct p; cbn [Z.log2 Pos.size]; lia.
Qed.

Lemma Zdigits2_pos (p : positive) : 0 < Zdigits2 (Zpos p).
Proof. cbn. lia. Qed.

Lemma shr_1_m (mrs : shr_record) :
  0 <= shr_m mrs -> shr_m (shr_1 mrs) = shr_m mrs / 2 /\ 0 <= shr_m (shr_1 mrs).
Proof.
  destruct mrs as [m r s]. cbn [shr_m shr_1]. intros P.
  destruct m as [| [p | p |] | p]; cbn [shr_m]; try lia.
  all: split; [| lia]; try reflexivity.
  - apply Z.div_unique with (r := 1); lia.
  - apply Z.div_unique with (r := 0); lia.
Qed.

Lemma iter_shr_1_m (n : positive) :
  forall mrs, 0 <= shr_m mrs ->
    shr_m (iter_pos shr_1 n mrs) = shr_m mrs / 2 ^ Zpos n
    /\ 0 <= shr_m (iter_pos shr_1 n mrs).
Proof.
  assert (H2 : forall k : positive, 0 < 2 ^ Zpos k)
    by (intros k; apply Z.pow_pos_nonneg; lia).
  induction n as [n IH | n IH |]; intros mrs P; cbn [iter_pos].
  - destruct (shr_1_m mrs P) as [E1 P1].
    destruct (IH _ P1) as [E2 P2]. destruct (IH _ P2) as [E3 P3].
    split; [| exact P3]. rewrite E3, E2, E1. pose proof (H2 n).
    rewrite !Z.div_div by lia. f_equal.
    replace (Zpos n~1) with (Zpos n + Zpos n + 1) by lia.
    rewrite !Z.pow_add_r, Z.pow_1_r by lia. ring.
  - destruct (IH _ P) as [E2 P2]. destruct (IH _ P2) as [E3 P3].
    split; [| exact P3]. rewrite E3, E2. pose proof (H2 n).
    rewrite !Z.div_div by lia. f_equal.
    replace (Zpos n~0) with (Zpos n + Zpos n) by lia.
    rewrite Z.pow_add_r by lia. ring.
  - apply shr_1_m. exact P.
Qed.

Lemma fexp_ge (e : Z) : -1074 <= fexp prec emax e.
Proof. unfold fexp, emin, prec, emax. lia. Qed.

Lemma fexp_eq (e : Z) : fexp prec emax e = Z.max (e - 53) (-1074).
Proof. reflexivity. Qed.

Lemma round_nearest_even_ge (m : Z) (l : location) :
  m <= round_nearest_even m l.
Proof.
  destruct l as [| []]; cbn; try lia. destruct (Z.even m); lia.
Qed.

(** Shifting a positive mantissa by fewer bits than it has leaves a
    positive mantissa. *)
Lemma shr_positive (mrs : shr_record) (e n : Z) :
  0 < shr_m mrs -> n < Zdigits2 (shr_m mrs) ->
  0 < shr_m (fst (shr mrs e n)).
Proof.
  intros P N. unfold shr. destruct n as [| n | n]; cbn [fst]; trivial.
  destruct (iter_shr_1_m n mrs) as [E _]; [lia |]. rewrite E.
  destruct (shr_m mrs) as [| p | p]; try lia.
  rewrite Zdigits2_log2 in N.
  apply Z.div_str_pos. split; [apply Z.pow_pos_nonneg; lia |].
  apply Z.le_trans with (2 ^ Z.log2 (Zpos p)).
  - apply Z.pow_le_mono_r; lia.
  - apply Z.log2_spec. lia.
Qed.

Lemma shr_exponent (mrs : shr_record) (e n : Z) :
  snd (shr mrs e n) = e + Z.max n 0.
Proof. unfold shr. destruct n; cbn [snd]; lia. Qed.

(** Rounding a positive mantissa whose exponent is not below the least
    exponent never gives a zero. *)
Lemma binary_round_aux_nonzero (sx : bool) (m : positive) (e : Z) (l : location) :
  -1074 <= e ->
  float_is_zero (binary_round_aux prec emax sx (Zpos m) e l) = false.
Proof.
  intros E. unfold binary_round_aux, shr_fexp.
  set (n1 := fexp prec emax (Zdigits2 (Zpos m) + e) - e).
  assert (N1 : n1 < Zdigits2 (Zpos m)).
  { unfold n1. rewrite fexp_eq. pose proof (Zdigits2_pos m). lia. }
  pose proof (shr_positive (shr_record_of_loc (Zpos m) l) e n1) as P1.
  pose proof (shr_exponent (shr_record_of_loc (Zpos m) l) e n1) as X1.
  destruct (shr (shr_record_of_loc (Zpos m) l) e n1) as [mrs1 e1].
  cbn [fst snd] in P1, X1.
  assert (M1 : 0 < shr_m mrs1).
  { apply P1; [destruct l as [| []]; cbn; lia |].
    destruct l as [| []]; cbn [shr_record_of_loc shr_m]; exact N1. }
  assert (E1 : -1074 <= e1).
  { rewrite X1. lia. }
  set (m2 := round_nearest_even (shr_m mrs1) (loc_of_shr_record mrs1)).
  assert (M2 : 0 < m2).
  { pose proof (round_nearest_even_ge (shr_m mrs1) (loc_of_shr_record mrs1)).
    unfold m2. lia. }
  set (n2 := fexp prec emax (Zdigits2 m2 + e1) - e1).
  pose proof (shr_positive (shr_record_of_loc m2 loc_Exact) e1 n2) as P2.
  destruct (shr (shr_record_of_loc m2 loc_Exact) e1 n2) as [mrs2 e2].
  cbn [fst shr_record_of_loc shr_m] in P2.
  assert (M3 : 0 < shr_m mrs2).
  { apply P2; [exact M2 |]. unfold n2. rewrite fexp_eq.
    destruct m2 as [| p2 | p2]; try lia.
    pose proof (Zdigits2_pos p2). lia. }
  destruct (shr_m mrs2) as [| p | p]; try lia.
  destruct (Z.leb e2 (emax - prec)); reflexivity.
Qed.

Lemma shl_align_exponent (m : positive) (e e' : Z) :
  snd (shl_align m e e') = Z.min e e'.
Proof.
  unfold shl_align. destruct (e' - e) eqn:D; cbn [snd]; lia.
Qed.

(** A nonzero integer converts to a nonzero float. *)
Lemma nearest_double_nonzero (z : Z) :
  z <> 0 -> float_is_zero (nearest_double z) = false.
Proof.
  intros N. unfold nearest_double, binary_normalize.
  destruct z as [| p | p]; [contradiction | |];
    unfold binary_round;
    pose proof (shl_align_exponent p 0
                  (fexp prec emax (Zpos (digits2_pos p) + 0))) as X;
    destruct (shl_align p 0 (fexp prec emax (Zpos (digits2_pos p) + 0)))
      as [mz ez];
    cbn [snd] in X; apply binary_round_aux_nonzero;
    pose proof (fexp_ge (Zpos (digits2_pos p) + 0)); lia.
Qed.

(** The result of rounding carries the sign it was given. *)
Lemma binary_round_aux_sign (sx : bool) (m e : Z) (l : location) :
  match binary_round_aux prec emax sx m e l with
  | S754_zero s | S754_infinity s | S754_finite s _ _ => s = sx
  | S754_nan => True
  end.
Proof.
  unfold binary_round_aux.
  destruct (shr_fexp prec emax m e l) as [mrs1 e1].
  destruct (shr_fexp prec emax _ e1 loc_Exact) as [mrs2 e2].
  destruct (shr_m mrs2); trivial.
  destruct (Z.leb e2 (emax - prec)); reflexivity.
Qed.

Lemma Zdigits2_log2' (z : Z) : 0 < z -> Zdigits2 z = Z.log2 z + 1.
Proof. destruct z; try lia. intros _. apply Zdigits2_log2. Qed.

Lemma Zdigits2_mul_pow2 (z j : Z) :
  0 < z -> 0 <= j -> Zdigits2 (z * 2 ^ j) = Zdigits2 z + j.
Proof.
  intros Pz Pj.
  assert (0 < 2 ^ j) by (apply Z.pow_pos_nonneg; lia).
  rewrite !Zdigits2_log2' by nia.
  rewrite Z.log2_mul_pow2 by lia. lia.
Qed.

Lemma div_eucl_div_mod (a b : Z) : Z.div_eucl a b = (a / b, a mod b).
Proof.
  unfold Z.div, Z.modulo. now destruct (Z.div_eucl a b).
Qed.

(** Shifting out zero bits is exact. *)
Lemma iter_shr_1_exact (n : positive) :
  forall m0, 0 <= m0 ->
    iter_pos shr_1 n (Build_shr_record (m0 * 2 ^ Zpos n) false false)
    = Build_shr_record m0 false false.
Proof.
  assert (S1 : forall m0, 0 <= m0 ->
             shr_1 (Build_shr_record (m0 * 2) false false)
             = Build_shr_record m0 false false).
  { intros m0 P. rewrite Z.mul_comm. destruct m0; try lia; reflexivity. }
  induction n as [n IH | n IH |]; intros m0 P; cbn [iter_pos].
  - replace (m0 * 2 ^ Zpos n~1) with (m0 * 2 ^ Zpos n * 2 ^ Zpos n * 2).
    + assert (0 < 2 ^ Zpos n) by (apply Z.pow_pos_nonneg; lia).
      rewrite S1 by nia. rewrite IH by nia. now apply IH.
    + replace (Zpos n~1) with (Zpos n + Zpos n + 1) by lia.
      rewrite !Z.pow_add_r, Z.pow_1_r by lia. ring.
  - replace (m0 * 2 ^ Zpos n~0) with (m0 * 2 ^ Zpos n * 2 ^ Zpos n).
    + assert (0 < 2 ^ Zpos n) by (apply Z.pow_pos_nonneg; lia).
      rewrite IH by nia. now apply IH.
    + replace (Zpos n~0) with (Zpos n + Zpos n) by lia.
      rewrite Z.pow_add_r by lia. ring.
  - rewrite Z.pow_1_r. now apply S1.
Qed.

Lemma shr_exact (m0 e n : Z) :
  0 <= m0 -> 0 <= n ->
  shr (Build_shr_record (m0 * 2 ^ n) false false) e n
  = (Build_shr_record m0 false false, e + n).
Proof.
  intros P N. unfold shr. destruct n as [| n | n]; try lia.
  - rewrite Z.pow_0_r, Z.mul_1_r, Z.add_0_r. reflexivity.
  - now rewrite iter_shr_1_exact.
Qed.

(** Rounding a mantissa of exactly 53 bits (after removing zero bits) at
    its own exponent changes nothing. *)
Lemma binary_round_aux_exact (c s e : Z) :
  0 < c -> c < 2 ^ 53 -> 0 <= s ->
  let k := Zdigits2 c - 53 in
  e = - s -> e <= k ->
  binary_round_aux prec emax false (c * 2 ^ s) e loc_Exact
  = S754_finite false (Z.to_pos (c * 2 ^ (- k))) k.
Proof.
  intros Pc Bc Ps k -> Ek.
  assert (Dc : 1 <= Zdigits2 c <= 53).
  { rewrite Zdigits2_log2' by lia. pose proof (Z.log2_nonneg c).
    assert (Z.log2 c < 53) by (apply Z.log2_lt_pow2; lia). lia. }
  assert (Kn : -52 <= k <= 0) by (unfold k; lia).
  unfold binary_round_aux, shr_fexp.
  rewrite Zdigits2_mul_pow2 by lia.
  replace (Zdigits2 c + s + - s) with (Zdigits2 c) by lia.
  rewrite fexp_eq. replace (Z.max (Zdigits2 c - 53) (-1074)) with k by (unfold k; lia).
  cbn [shr_record_of_loc].
  replace (c * 2 ^ s) with (c * 2 ^ (- k) * 2 ^ (k - - s)).
  2:{ rewrite <- Z.mul_assoc, <- Z.pow_add_r by lia. f_equal. f_equal. lia. }
  assert (P2 : 0 < 2 ^ (- k)) by (apply Z.pow_pos_nonneg; lia).
  rewrite shr_exact by nia.
  cbn [shr_m loc_of_shr_record round_nearest_even].
  rewrite Zdigits2_mul_pow2 by lia.
  replace (- s + (k - - s)) with k by lia.
  replace (Zdigits2 c + - k + k) with (Zdigits2 c) by lia.
  rewrite fexp_eq. replace (Z.max (Zdigits2 c - 53) (-1074)) with k by (unfold k; lia).
  rewrite Z.sub_diag. cbn [shr shr_m].
  destruct (c * 2 ^ (- k)) as [| p | p] eqn:M; try nia.
  cbn [Z.to_pos].
  replace (Z.leb k (emax - prec)) with true; [reflexivity |].
  symmetry. apply Z.leb_le. unfold emax, prec. lia.
Qed.

Lemma shift_match (a s : Z) :
  0 <= s ->
  match s with
  | 0 => a
  | Zpos _ => Z.shiftl a s
  | Zneg _ => 0
  end = a * 2 ^ s.
Proof.
  intros P. destruct s as [| p | p]; try lia.
  now rewrite Z.shiftl_mul_pow2 by lia.
Qed.

(** The quotient of [b * c] by [b] is the integer [c] exactly, when [c] has
    at most 53 bits. *)
Lemma fdiv_exact (b c : positive) :
  Zpos c < 2 ^ 53 ->
  let k := Zdigits2 (Zpos c) - 53 in
  fdiv (Z2SF (Zpos b * Zpos c)) (Z2SF (Zpos b))
  = S754_finite false (Z.to_pos (Zpos c * 2 ^ (- k))) k.
Proof.
  intros Bc k.
  change (Zpos b * Zpos c) with (Zpos (b * c)).
  cbn [Z2SF]. unfold fdiv, SFdiv, SFdiv_core_binary.
  set (d1 := Zdigits2 (Zpos (b * c))).
  set (d2 := Zdigits2 (Zpos b)).
  assert (Dc : 1 <= Zdigits2 (Zpos c) <= 53).
  { rewrite Zdigits2_log2. pose proof (Z.log2_nonneg (Zpos c)).
    assert (Z.log2 (Zpos c) < 53) by (apply Z.log2_lt_pow2; lia). lia. }
  assert (D : Zdigits2 (Zpos c) - 1 <= d1 - d2 <= Zdigits2 (Zpos c)).
  { unfold d1, d2. rewrite !Zdigits2_log2. rewrite Pos2Z.inj_mul.
    pose proof (Z.log2_mul_below (Zpos b) (Zpos c)).
    pose proof (Z.log2_mul_above (Zpos b) (Zpos c)). lia. }
  replace (d1 + 0 - (d2 + 0)) with (d1 - d2) by lia.
  rewrite fexp_eq. cbn [Z.sub Z.opp Z.add] .
  set (e' := Z.min (Z.max (d1 - d2 - 53) (-1074)) 0).
  assert (Ee : e' = d1 - d2 - 53) by (unfold e'; lia).
  assert (S0 : 0 <= - e') by lia.
  replace (0 - e') with (- e') by lia.
  rewrite (shift_match (Zpos (b * c)) (- e') S0).
  replace (Zpos (b * c) * 2 ^ (- e')) with (Zpos b * (Zpos c * 2 ^ (- e')))
    by (rewrite Pos2Z.inj_mul; ring).
  rewrite div_eucl_div_mod.
  rewrite (Z.mul_comm (Zpos b)), Z.div_mul, Z.mod_mul by lia.
  assert (L : new_location (Zpos b) 0 = loc_Exact).
  { unfold new_location. destruct (Z.even (Zpos b)); reflexivity. }
  rewrite L. cbn [xorb].
  apply (binary_round_aux_exact (Zpos c) (- e') e'); lia.
Qed.

(** ** Comparisons *)

Lemma Qcompare_inject_Z (x y : Z) :
  Qcompare (inject_Z x) (inject_Z y) = Z.compare x y.
Proof. unfold Qcompare. cbn. now rewrite !Z.mul_1_r. Qed.

Lemma compare_int_int (v : value) (x z : Z) :
  int_value v = Some x -> compare_int v z = Some (Z.compare x z).
Proof.
  destruct v; cbn; try discriminate; intros [= <-];
    unfold compare_int; cbn; now rewrite Qcompare_inject_Z.
Qed.

Lemma numeric_as_num (v : value) : numeric v <-> exists n, as_num v = Some n.
Proof.
  unfold numeric. destruct v; cbn; split; try discriminate; eauto;
    intros [n H]; discriminate H.
Qed.

Lemma numeric_dec (v : value) : {numeric v} + {~ numeric v}.
Proof.
  unfold numeric. destruct (isinstance v [Tint; Tfloat]); [left | right]; congruence.
Qed.

Lemma int_is_numeric (v : value) (z : Z) : int_value v = Some z -> numeric v.
Proof. destruct v; cbn; try discriminate; reflexivity. Qed.

Lemma isinstance_int (v : value) :
  isinstance v [Tint] = true <-> exists z, int_value v = Some z.
Proof.
  destruct v; cbn; split; try discriminate; eauto; intros [z H]; discriminate H.
Qed.

Lemma py_lt_0 (v : value) :
  numeric v ->
  py_lt v (VInt 0)
  = Ok match compare_int v 0 with Some Lt => true | _ => false end.
Proof.
  intros [n E]%numeric_as_num. unfold py_lt, compare_int. now rewrite E.
Qed.

Lemma py_le_0 (v : value) :
  numeric v ->
  py_le v (VInt 0)
  = Ok match compare_int v 0 with Some Lt | Some Eq => true | _ => false end.
Proof.
  intros [n E]%numeric_as_num. unfold py_le, compare_int. now rewrite E.
Qed.

Lemma py_eq_0 (v : value) :
  py_eq v (VInt 0)
  = match compare_int v 0 with Some Eq => true | _ => false end.
Proof.
  unfold py_eq, compare_int. destruct (as_num v); reflexivity.
Qed.

Lemma is_negative_dec (v : value) : {is_negative v} + {~ is_negative v}.
Proof.
  unfold is_negative. destruct (compare_int v 0) as [[| |] |];
    (left; reflexivity) || (right; discriminate).
Qed.

Lemma is_zero_dec (v : value) : {is_zero v} + {~ is_zero v}.
Proof.
  unfold is_zero. destruct (compare_int v 0) as [[| |] |];
    (left; reflexivity) || (right; discriminate).
Qed.

Lemma is_zero_not_negative (v : value) : is_zero v -> ~ is_negative v.
Proof. unfold is_zero, is_negative. congruence. Qed.


Lemma is_nonnegative_quantity (v : value) :
  numeric v -> is_nonnegative v -> quantity v.
Proof.
  unfold quantity, is_nonnegative, is_positive, is_negative, is_zero.
  intros N [P | P]; split; trivial; congruence.
Qed.

Lemma is_zero_int (v : value) (z : Z) :
  int_value v = Some z -> (is_zero v <-> z = 0).
Proof.
  intros E. unfold is_zero. rewrite (compare_int_int v z 0 E).
  split; [intros [= H]; now apply Z.compare_eq | intros ->; reflexivity].
Qed.

Lemma float_is_zero_is_zero (f : spec_float) :
  float_is_zero f = true -> is_zero (VFloat f).
Proof. destruct f; cbn; try discriminate. reflexivity. Qed.

(** ** The validator *)

Section Validator.

Variables (v : value) (name : string) (allow_zero : bool).

Lemma validate_type :
  ~ numeric v ->
  LittlesLaw._validate_input v name allow_zero
  = Raise (TypeError [Lit "Invalid type for '"; Fmt (VStr name);
                      Lit "'. Expected int or float, got ";
                      Fmt (VStr (type_name (type_of v))); Lit "."]).
Proof.
  unfold numeric, LittlesLaw._validate_input.
  destruct (isinstance v [Tint; Tfloat]); [now intros [] | reflexivity].
Qed.

Lemma validate_negative :
  numeric v -> is_negative v ->
  LittlesLaw._validate_input v name allow_zero
  = (shown <- format v ;;
     Raise (ValueError [Lit "Invalid value for '"; Fmt (VStr name);
                        Lit "'. Value cannot be negative ("; shown;
                        Lit ")."])).
Proof.
  intros N L. unfold LittlesLaw._validate_input.
  rewrite N, (py_lt_0 v N). unfold is_negative in L. now rewrite L.
Qed.

Lemma validate_negative_shown :
  numeric v -> is_negative v -> convertible v = true ->
  LittlesLaw._validate_input v name allow_zero
  = Raise (ValueError [Lit "Invalid value for '"; Fmt (VStr name);
                       Lit "'. Value cannot be negative ("; Fmt v;
                       Lit ")."]).
Proof.
  intros N L C. rewrite (validate_negative N L). unfold format. now rewrite C.
Qed.

Lemma validate_negative_digits :
  numeric v -> is_negative v -> convertible v = false ->
  LittlesLaw._validate_input v name allow_zero = Raise digits_limit.
Proof.
  intros N L C. rewrite (validate_negative N L). unfold format. now rewrite C.
Qed.

Lemma validate_negative_range :
  numeric v -> is_negative v ->
  RangeKind (LittlesLaw._validate_input v name allow_zero).
Proof.
  intros N L. rewrite (validate_negative N L). unfold format.
  destruct (convertible v); exact I.
Qed.

Lemma validate_zero :
  numeric v -> is_zero v -> allow_zero = false ->
  LittlesLaw._validate_input v name allow_zero
  = Raise (ValueError [Lit "Invalid value for '"; Fmt (VStr name);
                       Lit "'. Value cannot be zero (dividing by zero)."]).
Proof.
  intros N Z ->. unfold LittlesLaw._validate_input.
  rewrite N, (py_lt_0 v N), py_eq_0. unfold is_zero in Z. now rewrite Z.
Qed.

Lemma validate_pass :
  numeric v -> ~ is_negative v -> (allow_zero = true \/ ~ is_zero v) ->
  LittlesLaw._validate_input v name allow_zero = Ok tt.
Proof.
  intros N P Z. unfold LittlesLaw._validate_input.
  rewrite N, (py_lt_0 v N), py_eq_0.
  unfold is_negative, is_zero in *.
  destruct (compare_int v 0) as [[| |] |], allow_zero; cbn;
    try reflexivity; try (now destruct P).
  destruct Z as [Z | Z]; [discriminate Z | now destruct Z].
Qed.

(** The validator passes only on a number that is not negative and, where
    zero is not allowed, not zero. *)
Lemma validate_pass_inv :
  LittlesLaw._validate_input v name allow_zero = Ok tt ->
  numeric v /\ ~ is_negative v /\ (allow_zero = true \/ ~ is_zero v).
Proof.
  destruct (numeric_dec v) as [N | N]; [| now rewrite (validate_type N)].
  destruct (is_negative_dec v) as [L | P].
  { intros H. pose proof (validate_negative_range N L) as R.
    rewrite H in R. destruct R. }
  destruct (sumbool_of_bool allow_zero) as [A | A]; [now auto |].
  destruct (is_zero_dec v) as [Z | Z]; [| now auto].
  now rewrite (validate_zero N Z A).
Qed.

(** The failures of the validator, by cases. *)
Lemma validate_failure (e : exn) :
  LittlesLaw._validate_input v name allow_zero = Raise e ->
  (~ numeric v
   /\ e = TypeError [Lit "Invalid type for '"; Fmt (VStr name);
                     Lit "'. Expected int or float, got ";
                     Fmt (VStr (type_name (type_of v))); Lit "."])
  \/ (numeric v /\ is_negative v /\ convertible v = true
      /\ e = ValueError [Lit "Invalid value for '"; Fmt (VStr name);
                         Lit "'. Value cannot be negative ("; Fmt v;
                         Lit ")."])
  \/ (numeric v /\ is_negative v /\ convertible v = false
      /\ e = digits_limit)
  \/ (numeric v /\ is_zero v /\ allow_zero = false
      /\ e = ValueError [Lit "Invalid value for '"; Fmt (VStr name);
                         Lit "'. Value cannot be zero (dividing by zero)."]).
Proof.
  intros F.
  destruct (numeric_dec v) as [N | N].
  - destruct (is_negative_dec v) as [L | P].
    + destruct (convertible v) eqn:C.
      * right. left. rewrite (validate_negative_shown N L C) in F.
        intuition congruence.
      * right. right. left. rewrite (validate_negative_digits N L C) in F.
        intuition congruence.
    + destruct (sumbool_of_bool allow_zero) as [A | A].
      * rewrite (validate_pass N P (or_introl A)) in F. discriminate.
      * destruct (is_zero_dec v) as [Z | Z].
        -- right. right. right. rewrite (validate_zero N Z A) in F.
           intuition congruence.
        -- rewrite (validate_pass N P (or_intror Z)) in F. discriminate.
  - left. rewrite (validate_type N) in F. intuition congruence.
Qed.

End Validator.

(** ** Arithmetic on numbers *)

Lemma Ok_inj {A : Type} (a b : A) : Ok a = Ok b -> a = b.
Proof. congruence. Qed.

Lemma to_float_outcome (n : num) :
  (exists f, to_float n = Ok f)
  \/ to_float n = Raise (OverflowError [Lit "int too large to convert to float"]).
Proof.
  destruct n as [z | f]; cbn; [| eauto].
  destruct (nearest_double z); eauto.
Qed.

Lemma to_float_int (z : Z) (f : spec_float) :
  to_float (NInt z) = Ok f -> f = nearest_double z.
Proof.
  cbn. destruct (nearest_double z); congruence.
Qed.

Lemma py_mul_ints (a b : value) (x y : Z) :
  int_value a = Some x -> int_value b = Some y ->
  py_mul a b = Ok (VInt (x * y)).
Proof.
  destruct a; cbn; try discriminate; intros [= <-];
    destruct b; cbn; try discriminate; intros [= <-]; reflexivity.
Qed.

Lemma py_add_ints (a b : value) (x y : Z) :
  int_value a = Some x -> int_value b = Some y ->
  py_add a b = Ok (VInt (x + y)).
Proof.
  destruct a; cbn; try discriminate; intros [= <-];
    destruct b; cbn; try discriminate; intros [= <-]; reflexivity.
Qed.

Lemma py_mul_floats (a b : value) (na nb : num) :
  as_num a = Some na -> as_num b = Some nb ->
  type_of a = Tfloat \/ type_of b = Tfloat ->
  py_mul a b
  = (fa <- to_float na ;; fb <- to_float nb ;; Ok (VFloat (fmul fa fb))).
Proof.
  intros Ea Eb T. unfold py_mul. rewrite Ea, Eb.
  destruct a; try discriminate Ea; destruct b; try discriminate Eb;
    cbn in Ea, Eb; injection Ea as <-; injection Eb as <-;
    try reflexivity; destruct T as [T | T]; discriminate T.
Qed.

Lemma py_add_floats (a b : value) (na nb : num) :
  as_num a = Some na -> as_num b = Some nb ->
  type_of a = Tfloat \/ type_of b = Tfloat ->
  py_add a b
  = (fa <- to_float na ;; fb <- to_float nb ;; Ok (VFloat (fadd fa fb))).
Proof.
  intros Ea Eb T. unfold py_add. rewrite Ea, Eb.
  destruct a; try discriminate Ea; destruct b; try discriminate Eb;
    cbn in Ea, Eb; injection Ea as <-; injection Eb as <-;
    try reflexivity; destruct T as [T | T]; discriminate T.
Qed.

(** A number is an integer or a float. *)
Lemma numeric_cases (v : value) :
  numeric v ->
  (exists z, int_value v = Some z /\ as_num v = Some (NInt z))
  \/ (exists f, v = VFloat f).
Proof.
  unfold numeric. destruct v; cbn; try discriminate; eauto.
Qed.

(** Multiplication and addition of two numbers give a number or overflow
    in the conversion of an integer. *)
Lemma py_mul_numeric (a b : value) :
  numeric a -> numeric b ->
  (exists r, py_mul a b = Ok r /\ numeric r)
  \/ py_mul a b
     = Raise (OverflowError [Lit "int too large to convert to float"]).
Proof.
  intros [[x [Ia Ea]] | [fa ->]]%numeric_cases
         [[y [Ib Eb]] | [fb ->]]%numeric_cases.
  - left. rewrite (py_mul_ints _ _ _ _ Ia Ib). eexists. split; reflexivity.
  - rewrite (py_mul_floats a (VFloat fb) (NInt x) (NFloat fb) Ea eq_refl
               (or_intror eq_refl)).
    destruct (to_float_outcome (NInt x)) as [[f ->] | ->]; cbn; eauto.
    left. eexists. split; reflexivity.
  - rewrite (py_mul_floats (VFloat fa) b (NFloat fa) (NInt y) eq_refl Eb
               (or_introl eq_refl)).
    change (to_float (NFloat fa)) with (Ok fa). cbn [bind].
    destruct (to_float_outcome (NInt y)) as [[f ->] | ->]; cbn; eauto.
    left. eexists. split; reflexivity.
  - left. cbn. eexists. split; reflexivity.
Qed.

Lemma py_add_numeric (a b : value) :
  numeric a -> numeric b ->
  (exists r, py_add a b = Ok r /\ numeric r)
  \/ py_add a b
     = Raise (OverflowError [Lit "int too large to convert to float"]).
Proof.
  intros [[x [Ia Ea]] | [fa ->]]%numeric_cases
         [[y [Ib Eb]] | [fb ->]]%numeric_cases.
  - left. rewrite (py_add_ints _ _ _ _ Ia Ib). eexists. split; reflexivity.
  - rewrite (py_add_floats a (VFloat fb) (NInt x) (NFloat fb) Ea eq_refl
               (or_intror eq_refl)).
    destruct (to_float_outcome (NInt x)) as [[f ->] | ->]; cbn; eauto.
    left. eexists. split; reflexivity.
  - rewrite (py_add_floats (VFloat fa) b (NFloat fa) (NInt y) eq_refl Eb
               (or_introl eq_refl)).
    change (to_float (NFloat fa)) with (Ok fa). cbn [bind].
    destruct (to_float_outcome (NInt y)) as [[f ->] | ->]; cbn; eauto.
    left. eexists. split; reflexivity.
  - left. cbn. eexists. split; reflexivity.
Qed.

(** Whatever true division returns is a float. *)
Lemma py_truediv_float (a b r : value) :
  py_truediv a b = Ok r -> exists q, r = VFloat q.
Proof.
  unfold py_truediv.
  destruct (as_num a) as [[x | fa] |], (as_num b) as [[y | fb] |];
    try discriminate; cbn [to_float bind].
  - destruct (y =? 0); [discriminate |].
    destruct (fdiv (Z2SF x) (Z2SF y)); intros [= <-] || discriminate; eauto.
  - destruct (nearest_double x); cbn [bind]; try discriminate;
      destruct (float_is_zero fb); intros [= <-] || discriminate; eauto.
  - destruct (nearest_double y); cbn [bind]; try discriminate;
      match goal with
      | |- context [float_is_zero ?f] => destruct (float_is_zero f)
      end; intros [= <-] || discriminate; eauto.
  - destruct (float_is_zero fb); intros [= <-] || discriminate; eauto.
Qed.

(** True division of two numbers by a divisor that is not zero gives a
    float or overflows; it never raises [ZeroDivisionError]. *)
Lemma py_truediv_numeric (a b : value) :
  numeric a -> numeric b -> ~ is_zero b ->
  (exists q, py_truediv a b = Ok (VFloat q)) \/ Overflows (py_truediv a b).
Proof.
  intros [[x [Ia Ea]] | [fa ->]]%numeric_cases
         [[y [Ib Eb]] | [fb ->]]%numeric_cases Z; unfold py_truediv.
  - rewrite Ea, Eb.
    assert (Y : y <> 0) by (intros ->; apply Z; now apply (is_zero_int b 0)).
    apply Z.eqb_neq in Y. rewrite Y.
    destruct (fdiv (Z2SF x) (Z2SF y)); cbn; eauto.
  - rewrite Ea. cbn [as_num].
    assert (F : float_is_zero fb = false).
    { destruct (float_is_zero fb) eqn:F; trivial.
      exfalso. apply Z. now apply float_is_zero_is_zero. }
    destruct (to_float_outcome (NInt x)) as [[f ->] | ->]; cbn [bind];
      [| right; exact I].
    change (to_float (NFloat fb)) with (Ok fb). cbn [bind].
    rewrite F. eauto.
  - rewrite Eb. cbn [as_num].
    change (to_float (NFloat fa)) with (Ok fa). cbn [bind].
    assert (Y : y <> 0) by (intros ->; apply Z; now apply (is_zero_int b 0)).
    destruct (to_float (NInt y)) as [f |] eqn:T.
    + apply to_float_int in T. subst f. cbn [bind].
      rewrite (nearest_double_nonzero y Y). eauto.
    + destruct (to_float_outcome (NInt y)) as [[f E] | E];
        rewrite E in T; [discriminate |].
      injection T as <-. right. exact I.
  - cbn [as_num to_float bind].
    assert (F : float_is_zero fb = false).
    { destruct (float_is_zero fb) eqn:F; trivial.
      exfalso. apply Z. now apply float_is_zero_is_zero. }
    rewrite F. eauto.
Qed.

(** ** The operations on valid arguments *)

Ltac pass_validation :=
  repeat match goal with
    | |- context [LittlesLaw._validate_input ?v ?n ?a] =>
        rewrite (validate_pass v n a) by (auto; tauto)
    end; cbn [bind].

Lemma machine_count_test (m : value) :
  machine_count m ->
  isinstance m [Tint] = true /\ py_le m (VInt 0) = Ok false.
Proof.
  intros [z [E P]]. split; [apply isinstance_int; eauto |].
  rewrite (py_le_0 m (int_is_numeric m z E)), (compare_int_int m z 0 E).
  destruct (Z.compare_spec z 0); try lia; reflexivity.
Qed.

Lemma not_machine_count_test (m : value) :
  ~ machine_count m ->
  isinstance m [Tint] = false
  \/ (isinstance m [Tint] = true /\ py_le m (VInt 0) = Ok true).
Proof.
  intros H. destruct (isinstance m [Tint]) eqn:I; [right | now left].
  split; trivial. apply isinstance_int in I. destruct I as [z E].
  rewrite (py_le_0 m (int_is_numeric m z E)), (compare_int_int m z 0 E).
  destruct (Z.compare_spec z 0); try reflexivity.
  exfalso. apply H. exists z. split; [exact E | lia].
Qed.

Lemma machine_count_dec (m : value) : {machine_count m} + {~ machine_count m}.
Proof.
  unfold machine_count. destruct (int_value m) as [z |].
  - destruct (Z_le_gt_dec 1 z) as [L | G].
    + left. eauto.
    + right. intros [z' [[= <-] P]]. lia.
  - right. intros [z [E _]]. discriminate E.
Qed.

Lemma machine_count_not_zero (m : value) : machine_count m -> ~ is_zero m.
Proof.
  intros [z [E P]] Z. apply (is_zero_int m z E) in Z. lia.
Qed.

Section ValidArguments.

Variables a b : value.
Hypotheses (Qa : quantity a) (Qb : quantity b).

Lemma calculate_wip_passes :
  LittlesLaw.calculate_wip a b = py_mul a b.
Proof.
  destruct Qa, Qb. unfold LittlesLaw.calculate_wip. now pass_validation.
Qed.

Lemma calculate_planned_inventory_passes :
  LittlesLaw.calculate_planned_inventory a b = py_mul b a.
Proof.
  destruct Qa, Qb. unfold LittlesLaw.calculate_planned_inventory.
  now pass_validation.
Qed.

Lemma calculate_cycle_time_passes :
  ~ is_zero b -> LittlesLaw.calculate_cycle_time a b = py_truediv a b.
Proof.
  intros Z. destruct Qa, Qb. unfold LittlesLaw.calculate_cycle_time.
  now pass_validation.
Qed.

Lemma calculate_throughput_passes :
  ~ is_zero b -> LittlesLaw.calculate_throughput a b = py_truediv a b.
Proof.
  intros Z. destruct Qa, Qb. unfold LittlesLaw.calculate_throughput.
  now pass_validation.
Qed.

Lemma financial_cycle_time_passes :
  ~ is_zero b -> LittlesLaw.financial_cycle_time a b = py_truediv a b.
Proof.
  intros Z. destruct Qa, Qb. unfold LittlesLaw.financial_cycle_time.
  now pass_validation.
Qed.

Lemma calculate_station_utilization_passes (m : value) :
  machine_count m ->
  LittlesLaw.calculate_station_utilization a b m
  = (station_wip <- py_mul a b ;;
     utilization <- py_truediv station_wip m ;;
     utilization_pct <- py_mul utilization (VInt 100) ;;
     Ok (VDict [("station_wip", station_wip);
                ("utilization", utilization);
                ("utilization_pct", utilization_pct)])).
Proof.
  intros [Im Lm]%machine_count_test. destruct Qa, Qb.
  unfold LittlesLaw.calculate_station_utilization. pass_validation.
  rewrite Im, Lm. cbn [negb bind].
  destruct (py_mul a b) as [w |]; cbn [bind]; trivial.
  destruct (py_truediv w m) as [u |] eqn:D; cbn [bind]; trivial.
  destruct (py_truediv_float _ _ _ D) as [q ->].
  cbn [py_gt as_num bind].
  destruct (xcompare _ _) as [[| |] |]; reflexivity.
Qed.

Lemma calculate_station_utilization_rejects (m : value) :
  ~ machine_count m ->
  LittlesLaw.calculate_station_utilization a b m
  = Raise (machine_count_error m).
Proof.
  intros H. destruct Qa, Qb.
  unfold LittlesLaw.calculate_station_utilization. pass_validation.
  unfold machine_count_error.
  destruct (not_machine_count_test m H) as [I | [I L]]; rewrite I;
    cbn [negb bind]; try rewrite L; cbn [bind];
    destruct (format m); reflexivity.
Qed.

(** Inventory turns of throughput [t] for wip [a] and fgi [b]. *)
Variable t : value.
Hypothesis Qt : quantity t.

Lemma calculate_inventory_turns_passes :
  LittlesLaw.calculate_inventory_turns t a b
  = (total_inventory <- py_add a b ;;
     if py_eq total_inventory (VInt 0) then
       Raise (ValueError
         [Lit "Total inventory (WIP + FGI) cannot be zero when calculating turns."])
     else py_truediv t total_inventory).
Proof.
  destruct Qa, Qb, Qt. unfold LittlesLaw.calculate_inventory_turns.
  now pass_validation.
Qed.

End ValidArguments.

(** ** Validation precedes the formula *)

Lemma valid_inv (name : string) (allow_zero : bool) (v : value) :
  valid (name, allow_zero, v) ->
  quantity v /\ (allow_zero = true \/ ~ is_zero v).
Proof.
  intros H. apply validate_pass_inv in H. unfold quantity. tauto.
Qed.

Lemma valid_divisor (name : string) (v : value) :
  valid (name, false, v) -> quantity v /\ ~ is_zero v.
Proof.
  intros [Q [Z | Z]]%valid_inv; [discriminate Z | auto].
Qed.

Lemma validate_all_valid (ps : list (string * bool * value)) :
  validate_all ps = Ok tt <-> Forall valid ps.
Proof.
  induction ps as [| p ps IH]; cbn.
  - split; [constructor | reflexivity].
  - destruct (validate p) as [[] | e] eqn:Vp; cbn.
    + rewrite IH. split; [now constructor | now inversion 1].
    + split; [discriminate |].
      inversion 1 as [| ? ? Hp _]. unfold valid in Hp. congruence.
Qed.

(** The validator run over the parameters fails with the error of the first
    parameter in order that is not valid. *)
Lemma validate_all_first (before after : list (string * bool * value)) p e :
  Forall valid before -> validate p = Raise e ->
  validate_all (before ++ p :: after)%list = Raise e.
Proof.
  intros V F. induction V as [| q before Vq _ IH]; cbn.
  - now rewrite F.
  - unfold valid in Vq. now rewrite Vq.
Qed.

Lemma validate_all_fails (ps : list (string * bool * value)) e :
  validate_all ps = Raise e ->
  exists before p after,
    ps = (before ++ p :: after)%list /\ Forall valid before
    /\ validate p = Raise e.
Proof.
  induction ps as [| q ps IH]; cbn; [discriminate |].
  destruct (validate q) as [[] | e'] eqn:Vq; cbn.
  - intros [before [p [after [-> [V F]]]]]%IH.
    exists (q :: before), p, after. repeat split; trivial. now constructor.
  - intros [= ->]. exists [], q, ps. repeat split; trivial.
Qed.

(** A failure of the validator on a Quantity parameter is the outcome of the
    call. *)
Lemma run_validation_failure (c : call) (e : exn) :
  validate_all (quantities c) = Raise e -> run c = Raise e.
Proof.
  destruct c; cbn [run quantities validate_all validate];
    unfold LittlesLaw.calculate_wip, LittlesLaw.calculate_cycle_time,
      LittlesLaw.calculate_throughput,
      LittlesLaw.calculate_station_utilization,
      LittlesLaw.calculate_inventory_turns,
      LittlesLaw.calculate_planned_inventory,
      LittlesLaw.financial_cycle_time;
    repeat match goal with
      | |- context [LittlesLaw._validate_input ?v ?n ?a] =>
          destruct (LittlesLaw._validate_input v n a) as [[] | ?]; cbn [bind]
      end;
    congruence.
Qed.

Lemma run_ok_valid (c : call) (r : value) :
  run c = Ok r -> Forall valid (quantities c).
Proof.
  intros R. destruct (validate_all (quantities c)) as [[] | e] eqn:V.
  - now apply validate_all_valid.
  - rewrite (run_validation_failure c e V) in R. discriminate R.
Qed.

Ltac use_validity :=
  repeat match goal with
    | H : Forall valid (_ :: _) |- _ => inversion H; subst; clear H
    | H : valid (_, false, _) |- _ =>
        apply valid_divisor in H; destruct H as [? ?]
    | H : valid (_, true, _) |- _ =>
        apply valid_inv in H; destruct H as [? _]
    end.

(** With every Quantity parameter valid a call returns a result, fails one
    of the two later checks, or overflows in the arithmetic. *)
Lemma run_after_validation (c : call) :
  Forall valid (quantities c) ->
  (exists r, run c = Ok r)
  \/ (exists e, run c = Raise e /\ late_failure c e)
  \/ Overflows (run c).
Proof.
  intros V. destruct c; cbn [quantities] in V; use_validity; cbn [run].
  - assert (Qa : quantity throughput) by assumption.
    assert (Qb : quantity cycle_time) by assumption.
    rewrite calculate_wip_passes by assumption.
    destruct (py_mul_numeric _ _ (proj1 Qa) (proj1 Qb)) as [[r [E _]] | E];
      rewrite E; cbn; eauto.
  - assert (Qa : quantity wip) by assumption.
    assert (Qb : quantity throughput) by assumption.
    assert (Zb : ~ is_zero throughput) by assumption.
    rewrite calculate_cycle_time_passes by assumption.
    destruct (py_truediv_numeric _ _ (proj1 Qa) (proj1 Qb) Zb) as [[q E] | E];
      [rewrite E |]; eauto.
  - assert (Qa : quantity wip) by assumption.
    assert (Qb : quantity cycle_time) by assumption.
    assert (Zb : ~ is_zero cycle_time) by assumption.
    rewrite calculate_throughput_passes by assumption.
    destruct (py_truediv_numeric _ _ (proj1 Qa) (proj1 Qb) Zb) as [[q E] | E];
      [rewrite E |]; eauto.
  - assert (Qa : quantity station_throughput) by assumption.
    assert (Qb : quantity station_cycle_time) by assumption.
    destruct (machine_count_dec number_of_machines) as [M | M].
    + rewrite calculate_station_utilization_passes by assumption.
      destruct (py_mul_numeric _ _ (proj1 Qa) (proj1 Qb)) as [[w [E Nw]] | E];
        rewrite E; cbn [bind]; [| right; right; exact I].
      assert (Nm : numeric number_of_machines).
      { destruct M as [z [Ez _]]. exact (int_is_numeric _ _ Ez). }
      destruct (py_truediv_numeric _ _ Nw Nm (machine_count_not_zero _ M))
        as [[q D] | D].
      * rewrite D. cbn [bind]. left. eexists. reflexivity.
      * right. right.
        destruct (py_truediv w number_of_machines) as [? | []];
          try contradiction. exact I.
    + right. left. eexists. split; [| now constructor].
      now apply calculate_station_utilization_rejects.
  - assert (Qt : quantity throughput) by assumption.
    assert (Qa : quantity wip) by assumption.
    assert (Qb : quantity fgi) by assumption.
    rewrite calculate_inventory_turns_passes by assumption.
    destruct (py_add_numeric _ _ (proj1 Qa) (proj1 Qb)) as [[total [E Nt]] | E];
      rewrite E; cbn [bind]; [| right; right; exact I].
    destruct (py_eq total (VInt 0)) eqn:Z.
    + right. left. eexists. split; [reflexivity |].
      now apply no_inventory with total.
    + assert (Zt : ~ is_zero total).
      { unfold is_zero. rewrite py_eq_0 in Z.
        destruct (compare_int total 0) as [[| |] |]; congruence. }
      destruct (py_truediv_numeric _ _ (proj1 Qt) Nt Zt) as [[q D] | D].
      * left. eauto.
      * right. right. exact D.
  - assert (Qa : quantity throughput) by assumption.
    assert (Qb : quantity planned_days) by assumption.
    rewrite calculate_planned_inventory_passes by assumption.
    destruct (py_mul_numeric _ _ (proj1 Qb) (proj1 Qa)) as [[r [E _]] | E];
      rewrite E; cbn; eauto.
  - assert (Qa : quantity wip_value) by assumption.
    assert (Qb : quantity cost_of_goods_sold) by assumption.
    assert (Zb : ~ is_zero cost_of_goods_sold) by assumption.
    rewrite financial_cycle_time_passes by assumption.
    destruct (py_truediv_numeric _ _ (proj1 Qa) (proj1 Qb) Zb) as [[q E] | E];
      [rewrite E |]; eauto.
Qed.

Lemma late_failure_raises (c : call) (e : exn) :
  Forall valid (quantities c) -> late_failure c e -> run c = Raise e.
Proof.
  intros V L. destruct L as [t ct m M | t w f total A Z];
    cbn [quantities] in V; use_validity; cbn [run].
  - now apply calculate_station_utilization_rejects.
  - rewrite calculate_inventory_turns_passes by assumption.
    rewrite A. cbn [bind]. now rewrite Z.
Qed.

(** Every failure of a call is the validator's failure on its first invalid
    Quantity parameter or, with all of them valid, the failure of a later
    check or an overflow of the arithmetic. *)
Lemma run_failure (c : call) (e : exn) :
  run c = Raise e ->
  (exists before p after,
      quantities c = (before ++ p :: after)%list /\ Forall valid before
      /\ validate p = Raise e)
  \/ (Forall valid (quantities c) /\ late_failure c e)
  \/ (Forall valid (quantities c) /\ Overflows (run c)).
Proof.
  intros R. destruct (validate_all (quantities c)) as [[] | e'] eqn:V.
  - right. apply validate_all_valid in V.
    destruct (run_after_validation c V) as [[r E] | [[e' [E L]] | O]].
    + congruence.
    + left. split; [exact V |]. congruence.
    + right. now split.
  - left. pose proof (run_validation_failure c e' V) as R'.
    assert (e' = e) as -> by congruence.
    now apply validate_all_fails.
Qed.

(** ** What an error carries *)

Lemma prefix_refl (s : string) : prefix s s = true.
Proof.
  induction s as [| a s IH]; cbn; [reflexivity |].
  destruct (Ascii.ascii_dec a a); [exact IH | congruence].
Qed.

Lemma contains_refl (s : string) : contains s s = true.
Proof.
  destruct s; [reflexivity |]. cbn [contains]. now rewrite prefix_refl.
Qed.

(** A message with the parameter name substituted into it names the
    parameter. *)
Lemma names_field (name : string) (e : exn) :
  shows (VStr name) e -> names name e = true.
Proof.
  intros S. unfold names. apply existsb_exists.
  exists (Fmt (VStr name)). split; [exact S | apply contains_refl].
Qed.

Lemma quantities_divisor (c : call) (name : string) (allow_zero : bool) v :
  In (name, allow_zero, v) (quantities c) ->
  allow_zero = false <-> divisor c name.
Proof.
  destruct c; cbn;
    repeat (intros [[= <- <- <-] | H]; [| revert H]); try (now intros []);
    split; congruence || discriminate || contradiction.
Qed.

Lemma quantities_arguments (c : call) (name : string) (allow_zero : bool) v :
  In (name, allow_zero, v) (quantities c) -> In (name, v) (arguments c).
Proof.
  destruct c; cbn; intuition (try congruence);
    match goal with H : _ = (name, allow_zero, v) |- _ => injection H as <- <- <- end;
    auto.
Qed.

(** ** The worked examples of the specification, and Python's arithmetic *)

Example planned_inventory_10_3 :
  LittlesLaw.calculate_planned_inventory (VInt 10) (VInt 3) = Ok (VInt 30).
Proof. reflexivity. Qed.

Example cycle_time_zero_throughput :
  RangeKind (LittlesLaw.calculate_cycle_time (VInt 7) (VInt 0)).
Proof. exact I. Qed.

Example cycle_time_negative_throughput :
  RangeKind (LittlesLaw.calculate_cycle_time (VInt 7) (VInt (-1))).
Proof. vm_compute. exact I. Qed.

Example cycle_time_string_wip :
  TypeKind (LittlesLaw.calculate_cycle_time (VStr "5") (VInt 2)).
Proof. exact I. Qed.

(** [0.1 * 3 == 0.30000000000000004] *)
Example wip_is_rounded :
  LittlesLaw.calculate_wip
    (VFloat (S754_finite false 7205759403792794 (-56))) (VInt 3)
  = Ok (VFloat (S754_finite false 5404319552844596 (-54))).
Proof. vm_compute. reflexivity. Qed.

(** [7 / 3 == 2.3333333333333335] *)
Example throughput_is_rounded :
  LittlesLaw.calculate_throughput (VInt 7) (VInt 3)
  = Ok (VFloat (S754_finite false 5254199565265579 (-51))).
Proof. vm_compute. reflexivity. Qed.

(** [5 / (3 + 0.5) == 1.4285714285714286] *)
Example inventory_turns_is_rounded :
  LittlesLaw.calculate_inventory_turns (VInt 5) (VInt 3) (VFloat float_0_5)
  = Ok (VFloat (S754_finite false 6433713753386423 (-52))).
Proof. vm_compute. reflexivity. Qed.

(** [5e-324 / 2 == 0.0] *)
Example cycle_time_underflows :
  LittlesLaw.calculate_cycle_time (VFloat float_tiny) (VInt 2)
  = Ok (VFloat (S754_zero false)).
Proof. vm_compute. reflexivity. Qed.

(** A NaN and an infinity pass the validator; [inf * 0.0] is a NaN. *)
Example nan_is_accepted :
  LittlesLaw.calculate_wip (VFloat S754_nan) (VInt 1) = Ok (VFloat S754_nan)
  /\ LittlesLaw.calculate_wip (VFloat (S754_infinity false))
       (VFloat (S754_zero false))
     = Ok (VFloat S754_nan).
Proof. split; vm_compute; reflexivity. Qed.

(** [10**400 / 1] and [10**400 * 1.5] *)
Example cycle_time_overflows :
  LittlesLaw.calculate_cycle_time (VInt (10 ^ 400)) (VInt 1)
  = Raise (OverflowError
             [Lit "integer division result too large for a float"])
  /\ LittlesLaw.calculate_wip (VInt (10 ^ 400)) (VFloat float_1_5)
     = Raise (OverflowError [Lit "int too large to convert to float"]).
Proof. split; vm_compute; reflexivity. Qed.

(** A negative integer of more than 4300 digits cannot be shown. *)
Example negative_beyond_digits :
  LittlesLaw.calculate_wip (VInt (- 10 ^ 4300)) (VInt 1) = Raise digits_limit.
Proof. vm_compute. reflexivity. Qed.




(** * Properties of the specification *)

(** ** Formulas *)

(** C1, as the code has it.  For every throughput and cycle time that the
    validator accepts (numbers that are not negative), [calculate_wip]
    passes validation and is Python's [throughput * cycle_time]: for two
    ints (or bools) their exact product; otherwise the double product of
    the operands converted to float.  It returns a number, or raises
    OverflowError because an int operand does not convert to a float. *)
Theorem calculate_wip_product (throughput cycle_time : value) :
  quantity throughput -> quantity cycle_time ->
  LittlesLaw.calculate_wip throughput cycle_time = py_mul throughput cycle_time
  /\ (forall x y,
         int_value throughput = Some x -> int_value cycle_time = Some y ->
         LittlesLaw.calculate_wip throughput cycle_time = Ok (VInt (x * y)))
  /\ (forall nt nc ft fc,
         type_of throughput = Tfloat \/ type_of cycle_time = Tfloat ->
         as_num throughput = Some nt -> as_num cycle_time = Some nc ->
         to_float nt = Ok ft -> to_float nc = Ok fc ->
         LittlesLaw.calculate_wip throughput cycle_time
         = Ok (VFloat (fmul ft fc)))
  /\ ((exists w, LittlesLaw.calculate_wip throughput cycle_time = Ok w
                 /\ numeric w)
      \/ LittlesLaw.calculate_wip throughput cycle_time
         = Raise (OverflowError [Lit "int too large to convert to float"])).
Proof.
  intros Qt Qc.
  rewrite (calculate_wip_passes _ _ Qt Qc).
  split; [reflexivity |]. split; [| split].
  - intros x y. apply py_mul_ints.
  - intros nt nc ft fc T Et Ec Ft Fc.
    rewrite (py_mul_floats _ _ _ _ Et Ec T), Ft, Fc. reflexivity.
  - apply py_mul_numeric; [apply Qt | apply Qc].
Qed.

Lemma calculate_wip_product_witness :
  (quantity (VInt 10) /\ quantity (VFloat float_1_5))
  /\ LittlesLaw.calculate_wip (VInt 10) (VFloat float_1_5)
     = py_mul (VInt 10) (VFloat float_1_5).
Proof.
  assert (H1 : quantity (VInt 10))
    by (split; [reflexivity | intros H; vm_compute in H; discriminate H]).
  assert (H2 : quantity (VFloat float_1_5))
    by (split; [reflexivity | intros H; vm_compute in H; discriminate H]).
  split; [now split |].
  exact (proj1 (calculate_wip_product (VInt 10) (VFloat float_1_5) H1 H2)).
Defined.

(** C1 as stated fails: [calculate_wip(10**400, 1.5)] has two numeric
    arguments >= 0 and raises OverflowError. *)
Lemma calculate_wip_overflow_counterexample :
  ~ (forall throughput cycle_time,
        numeric throughput -> is_nonnegative throughput ->
        numeric cycle_time -> is_nonnegative cycle_time ->
        exists w, LittlesLaw.calculate_wip throughput cycle_time = Ok w).
Proof.
  intros H.
  destruct (H (VInt (10 ^ 400)) (VFloat float_1_5)) as [w E].
  - reflexivity.
  - left. vm_compute. reflexivity.
  - reflexivity.
  - left. vm_compute. reflexivity.
  - vm_compute in E. discriminate E.
Qed.










(** The float [c * 2^(-k) * 2^k] compares equal to the integer [c]. *)
Lemma py_eq_exact (c k : Z) :
  0 < c -> k <= 0 ->
  py_eq (VFloat (S754_finite false (Z.to_pos (c * 2 ^ (- k))) k)) (VInt c)
  = true.
Proof.
  intros Pc Kn. unfold py_eq. cbn [as_num num_X SF2X xcompare].
  assert (P2 : 0 < 2 ^ (- k)) by (apply Z.pow_pos_nonneg; lia).
  assert (E : Zpos (Z.to_pos (c * 2 ^ (- k))) = c * 2 ^ (- k))
    by (apply Z2Pos.id; nia).
  replace (Qcompare _ _) with Eq; [reflexivity |].
  symmetry. apply Qeq_alt. unfold scale. rewrite E.
  destruct k as [| j | j]; try lia.
  - cbn [Z.opp]. rewrite !Z.pow_0_r, !Z.mul_1_r. reflexivity.
  - unfold Qeq. cbn [Qnum Qden inject_Z Z.opp].
    rewrite Pos2Z.inj_pow. ring.
Qed.




(** ** Errors *)

(** C3, as the code has it.  The validator is applied to the Quantity
    parameters in the order of the signature and its first failure is the
    outcome of the call.  So for a Quantity parameter whose predecessors are
    valid: a non-numeric argument makes the call fail with the TypeKind
    error of that parameter, a negative one with a RangeKind error (the one
    of that parameter, when the value can be shown), and a zero for a
    divisor (throughput of [calculate_cycle_time], cycle_time of
    [calculate_throughput], cost_of_goods_sold of [financial_cycle_time])
    with its RangeKind error; any other argument passes the validator. *)
Theorem quantity_validation_in_order
  (c : call) (before after : list (string * bool * value))
  (name : string) (allow_zero : bool) (v : value) :
  quantities c = (before ++ (name, allow_zero, v) :: after)%list ->
  Forall valid before ->
  (~ numeric v ->
   run c = Raise (TypeError [Lit "Invalid type for '"; Fmt (VStr name);
                             Lit "'. Expected int or float, got ";
                             Fmt (VStr (type_name (type_of v))); Lit "."]))
  /\ (numeric v -> is_negative v ->
      RangeKind (run c)
      /\ (convertible v = true ->
          run c = Raise (ValueError
                           [Lit "Invalid value for '"; Fmt (VStr name);
                            Lit "'. Value cannot be negative ("; Fmt v;
                            Lit ")."])))
  /\ (divisor c name -> numeric v -> is_zero v ->
      run c = Raise (ValueError
                       [Lit "Invalid value for '"; Fmt (VStr name);
                        Lit "'. Value cannot be zero (dividing by zero)."]))
  /\ (numeric v -> ~ is_negative v -> (divisor c name -> ~ is_zero v) ->
      valid (name, allow_zero, v)).
Proof.
  intros Q V.
  assert (D : allow_zero = false <-> divisor c name).
  { apply quantities_divisor with (v := v). rewrite Q. apply in_elt. }
  assert (F : forall e, validate (name, allow_zero, v) = Raise e ->
                        run c = Raise e).
  { intros e F. apply run_validation_failure. rewrite Q.
    now apply validate_all_first. }
  split; [| split; [| split]].
  - intros N. apply F. now apply validate_type.
  - intros N L. split.
    + pose proof (validate_negative_range v name allow_zero N L) as R.
      cbn [validate] in F.
      destruct (LittlesLaw._validate_input v name allow_zero) as [? | e];
        [destruct R |].
      now rewrite (F e eq_refl).
    + intros C. apply F. now apply validate_negative_shown.
  - intros Dn N Z. apply F. apply validate_zero; tauto.
  - intros N P Z. apply validate_pass; trivial.
    destruct allow_zero; [now left | right; tauto].
Qed.

Lemma quantity_validation_in_order_witness :
  (quantities (CalculateCycleTime (VInt 4) (VFloat (S754_zero true)))
   = ([("wip", true, VInt 4)]
        ++ [("throughput", false, VFloat (S754_zero true))])%list
   /\ Forall valid [("wip", true, VInt 4)]
   /\ divisor (CalculateCycleTime (VInt 4) (VFloat (S754_zero true)))
        "throughput"
   /\ numeric (VFloat (S754_zero true))
   /\ is_zero (VFloat (S754_zero true)))
  /\ run (CalculateCycleTime (VInt 4) (VFloat (S754_zero true)))
     = Raise (ValueError
                [Lit "Invalid value for '"; Fmt (VStr "throughput");
                 Lit "'. Value cannot be zero (dividing by zero)."]).
Proof.
  assert (H1 : quantities (CalculateCycleTime (VInt 4) (VFloat (S754_zero true)))
               = ([("wip", true, VInt 4)]
                    ++ [("throughput", false, VFloat (S754_zero true))])%list)
    by reflexivity.
  assert (H2 : Forall valid [("wip", true, VInt 4)])
    by (repeat constructor).
  assert (H3 : divisor (CalculateCycleTime (VInt 4) (VFloat (S754_zero true)))
                 "throughput")
    by reflexivity.
  assert (H4 : numeric (VFloat (S754_zero true))) by reflexivity.
  assert (H5 : is_zero (VFloat (S754_zero true))) by reflexivity.
  split; [now repeat split |].
  exact (proj1 (proj2 (proj2 (quantity_validation_in_order
                  (CalculateCycleTime (VInt 4) (VFloat (S754_zero true)))
                  [("wip", true, VInt 4)] [] "throughput" false
                  (VFloat (S754_zero true)) H1 H2))) H3 H4 H5).
Defined.

(** C3 as stated fails: a non-numeric argument does not make the call fail
    with a TypeKind error when an earlier parameter is invalid.
    [calculate_wip(-1, "x")] raises the ValueError of throughput. *)
Lemma later_argument_counterexample :
  ~ (forall c name allow_zero v,
        In (name, allow_zero, v) (quantities c) ->
        ~ numeric v -> TypeKind (run c)).
Proof.
  intros H.
  apply (H (CalculateWip (VInt (-1)) (VStr "x")) "cycle_time" true (VStr "x")).
  - cbn. auto.
  - unfold numeric. cbn. discriminate.
Qed.

(** C7, as the code has it.  A TypeKind error names the offending
    parameter and shows the type observed.  A RangeKind error for a
    negative argument names the parameter and shows the offending value;
    the one for a zero divisor names the parameter and does not show the
    value; the one for a bad machine count shows the offending value; the
    one for a zero total inventory is a fixed text.  Where the value to
    show is an integer of more than 4300 digits, the error of its
    conversion to text is raised in place of the message. *)
Theorem error_contents (c : call) (e : exn) :
  run c = Raise e ->
  (TypeKind (run c) ->
   exists name v,
     In (name, v) (arguments c) /\ ~ numeric v
     /\ names name e = true
     /\ shows (VStr (type_name (type_of v))) e)
  /\ (RangeKind (run c) ->
      (exists name v,
          In (name, v) (arguments c) /\ numeric v /\ is_negative v
          /\ convertible v = true
          /\ names name e = true /\ shows v e)
      \/ (exists name v,
             In (name, v) (arguments c) /\ numeric v /\ is_negative v
             /\ convertible v = false /\ e = digits_limit)
      \/ (exists name v,
             In (name, v) (arguments c) /\ divisor c name /\ is_zero v
             /\ names name e = true /\ ~ shows v e)
      \/ (exists t ct m,
             c = CalculateStationUtilization t ct m /\ ~ machine_count m
             /\ convertible m = true /\ shows m e)
      \/ (exists t ct m,
             c = CalculateStationUtilization t ct m /\ ~ machine_count m
             /\ convertible m = false /\ e = digits_limit)
      \/ (exists t w f total,
             c = CalculateInventoryTurns t w f
             /\ py_add w f = Ok total /\ py_eq total (VInt 0) = true
             /\ e = ValueError
                      [Lit "Total inventory (WIP + FGI) cannot be zero when calculating turns."])).
Proof.
  intros R.
  destruct (run_failure c e R)
    as [[before [[[name allow_zero] v] [after [Q [V F]]]]] | [[V L] | [V O]]].
  - rewrite R.
    assert (Iq : In (name, allow_zero, v) (quantities c))
      by (rewrite Q; apply in_elt).
    pose proof (quantities_arguments _ _ _ _ Iq) as Ia.
    pose proof (quantities_divisor _ _ _ _ Iq) as D.
    destruct (validate_failure v name allow_zero e F)
      as [[N ->] | [[N [L [C ->]]] | [[N [L [C ->]]] | [N [Z [A ->]]]]]];
      cbn [TypeKind RangeKind digits_limit].
    + split; [intros _ | intros []].
      exists name, v. repeat split; trivial.
      * apply names_field. cbn. auto.
      * cbn. auto 6.
    + split; [intros [] | intros _].
      left. exists name, v. repeat split; trivial.
      * apply names_field. cbn. auto.
      * cbn. auto 6.
    + split; [intros [] | intros _].
      right. left. exists name, v. repeat split; trivial.
    + split; [intros [] | intros _].
      right. right. left. exists name, v. repeat split; trivial.
      * now apply D.
      * apply names_field. cbn. auto.
      * cbn. intros [S | [S | [S | []]]]; try discriminate S.
        injection S as <-. discriminate N.
  - rewrite R. destruct L as [t ct m M | t w f total A Z];
      cbn [TypeKind RangeKind].
    + unfold machine_count_error in *. unfold format in *.
      destruct (convertible m) eqn:C; cbn [TypeKind RangeKind digits_limit].
      * split; [intros [] | intros _].
        right. right. right. left. exists t, ct, m. repeat split; trivial.
        cbn. auto.
      * split; [intros [] | intros _].
        right. right. right. right. left. exists t, ct, m.
        repeat split; trivial.
    + split; [intros [] | intros _].
      do 5 right. exists t, w, f, total. repeat split; trivial.
  - destruct (run c) as [? | []]; try contradiction; cbn; tauto.
Qed.

Lemma error_contents_witness :
  run (CalculateThroughput (VStr "8") (VInt 2))
  = Raise (TypeError [Lit "Invalid type for '"; Fmt (VStr "wip");
                      Lit "'. Expected int or float, got ";
                      Fmt (VStr "str"); Lit "."])
  /\ exists name v,
      In (name, v) (arguments (CalculateThroughput (VStr "8") (VInt 2)))
      /\ ~ numeric v
      /\ names name
           (TypeError [Lit "Invalid type for '"; Fmt (VStr "wip");
                       Lit "'. Expected int or float, got ";
                       Fmt (VStr "str"); Lit "."]) = true
      /\ shows (VStr (type_name (type_of v)))
           (TypeError [Lit "Invalid type for '"; Fmt (VStr "wip");
                       Lit "'. Expected int or float, got ";
                       Fmt (VStr "str"); Lit "."]).
Proof.
  assert (H : run (CalculateThroughput (VStr "8") (VInt 2))
              = Raise (TypeError
                         [Lit "Invalid type for '"; Fmt (VStr "wip");
                          Lit "'. Expected int or float, got ";
                          Fmt (VStr "str"); Lit "."]))
    by reflexivity.
  split; [exact H |].
  exact (proj1 (error_contents (CalculateThroughput (VStr "8") (VInt 2)) _ H) I).
Defined.

(** C7 as stated fails: the RangeKind error of a zero divisor does not
    show the offending value ([calculate_cycle_time(5, 0)]), and the one of
    [calculate_inventory_turns(5, 0, 0)] shows no value at all. *)
Lemma error_without_value_counterexample :
  ~ (forall c e,
        run c = Raise e ->
        exists name v,
          In (name, v) (arguments c) /\ names name e = true
          /\ (RangeKind (run c) -> shows v e))
  /\ (exists e,
         run (CalculateInventoryTurns (VInt 5) (VInt 0) (VInt 0)) = Raise e
         /\ RangeKind (Raise e : result value)
         /\ (forall v, ~ shows v e)).
Proof.
  split.
  - intros H.
    destruct (H (CalculateCycleTime (VInt 5) (VInt 0)) _ eq_refl)
      as [name [v [Ia [_ S]]]].
    specialize (S I). cbn in Ia, S.
    destruct Ia as [[= <- <-] | [[= <- <-] | []]];
      destruct S as [S | [S | [S | []]]]; discriminate S.
  - eexists. split; [reflexivity |].
    split; [exact I |].
    intros v [S | []]. discriminate S.
Qed.



(** C10. Booleans are accepted where a Quantity or a machine count is
    expected: the validator treats a bool as the integer 0 or 1 and passes
    [True], [calculate_wip(True, True)] returns 1, and
    [calculate_station_utilization(1, 1, True)] succeeds like a call with
    machine count 1. *)
Theorem bool_is_accepted :
  (forall b name allow_zero,
      LittlesLaw._validate_input (VBool b) name allow_zero
      = LittlesLaw._validate_input (VInt (if b then 1 else 0)) name allow_zero)
  /\ (forall name allow_zero,
         LittlesLaw._validate_input (VBool true) name allow_zero = Ok tt)
  /\ LittlesLaw.calculate_wip (VBool true) (VBool true) = Ok (VInt 1)
  /\ LittlesLaw.calculate_station_utilization (VInt 1) (VInt 1) (VBool true)
     = Ok (VDict [("station_wip", VInt 1); ("utilization", VFloat float_1);
                  ("utilization_pct", VFloat float_100)])
  /\ LittlesLaw.calculate_station_utilization (VInt 1) (VInt 1) (VBool true)
     = LittlesLaw.calculate_station_utilization (VInt 1) (VInt 1) (VInt 1).
Proof.
  split; [| split; [| repeat split; vm_compute; reflexivity]].
  - intros [|] name [|]; reflexivity.
  - intros name [|]; reflexivity.
Qed.

(** C8. In [calculate_inventory_turns] the validation of throughput, wip
    and fgi, in that order, comes before the sum and its zero check: a
    non-numeric throughput fails with a TypeKind error whatever wip and fgi
    are (also when wip + fgi is zero), the first failing validation is the
    outcome of the call, and a call that returns a result passed all three
    validations. *)
Theorem inventory_turns_validation_first (throughput wip fgi : value) :
  (~ numeric throughput ->
   LittlesLaw.calculate_inventory_turns throughput wip fgi
   = Raise (TypeError [Lit "Invalid type for '"; Fmt (VStr "throughput");
                       Lit "'. Expected int or float, got ";
                       Fmt (VStr (type_name (type_of throughput))); Lit "."]))
  /\ (forall e,
         LittlesLaw._validate_input throughput "throughput" true = Raise e ->
         LittlesLaw.calculate_inventory_turns throughput wip fgi = Raise e)
  /\ (forall e,
         LittlesLaw._validate_input throughput "throughput" true = Ok tt ->
         LittlesLaw._validate_input wip "wip" true = Raise e ->
         LittlesLaw.calculate_inventory_turns throughput wip fgi = Raise e)
  /\ (forall e,
         LittlesLaw._validate_input throughput "throughput" true = Ok tt ->
         LittlesLaw._validate_input wip "wip" true = Ok tt ->
         LittlesLaw._validate_input fgi "fgi" true = Raise e ->
         LittlesLaw.calculate_inventory_turns throughput wip fgi = Raise e)
  /\ (forall r,
         LittlesLaw.calculate_inventory_turns throughput wip fgi = Ok r ->
         LittlesLaw._validate_input throughput "throughput" true = Ok tt
         /\ LittlesLaw._validate_input wip "wip" true = Ok tt
         /\ LittlesLaw._validate_input fgi "fgi" true = Ok tt)
  /\ TypeKind (LittlesLaw.calculate_inventory_turns (VStr "5") (VInt 0) (VInt 0)).
Proof.
  unfold LittlesLaw.calculate_inventory_turns.
  repeat split; try (intros e); intros.
  - now rewrite validate_type.
  - now rewrite H.
  - now rewrite H, H0.
  - now rewrite H, H0, H1.
  - destruct (LittlesLaw._validate_input throughput _ _) as [[] | ?];
      [reflexivity | discriminate].
  - destruct (LittlesLaw._validate_input throughput _ _) as [[] | ?];
      [| discriminate].
    destruct (LittlesLaw._validate_input wip _ _) as [[] | ?];
      [reflexivity | discriminate].
  - destruct (LittlesLaw._validate_input throughput _ _) as [[] | ?];
      [| discriminate].
    destruct (LittlesLaw._validate_input wip _ _) as [[] | ?];
      [| discriminate].
    destruct (LittlesLaw._validate_input fgi _ _) as [[] | ?];
      [reflexivity | discriminate].
Qed.

Lemma inventory_turns_validation_first_witness :
  ~ numeric VNone
  /\ LittlesLaw.calculate_inventory_turns VNone (VInt 0) (VInt 0)
     = Raise (TypeError [Lit "Invalid type for '"; Fmt (VStr "throughput");
                         Lit "'. Expected int or float, got ";
                         Fmt (VStr "NoneType"); Lit "."]).
Proof.
  assert (H : ~ numeric VNone) by (unfold numeric; simpl; discriminate).
  split; [exact H |].
  exact (proj1 (inventory_turns_validation_first VNone (VInt 0) (VInt 0)) H).
Defined.

(** * Further properties of the code *)

(** ** The validator *)

(** X1. The validator passes exactly on the numbers (int, float, bool) that
    are not negative and, where zero is not allowed, not zero. *)
Theorem validator_passes_iff (v : value) (name : string) (allow_zero : bool) :
  LittlesLaw._validate_input v name allow_zero = Ok tt
  <-> numeric v /\ ~ is_negative v /\ (allow_zero = true \/ ~ is_zero v).
Proof.
  split.
  - apply validate_pass_inv.
  - intros [N [P Z]]. now apply validate_pass.
Qed.

(** ** The operations that divide *)

(** The outcome of validating and dividing does not depend on the names
    that go into the messages. *)
Lemma validated_quotient_outcome (n1 n2 : string) (a b : value) :
  (TypeKind (validated_quotient n1 n2 a b)
   <-> ~ numeric a \/ (quantity a /\ ~ numeric b))
  /\ (RangeKind (validated_quotient n1 n2 a b)
      <-> (numeric a /\ is_negative a)
          \/ (quantity a /\ numeric b /\ (is_negative b \/ is_zero b)))
  /\ (forall r,
         validated_quotient n1 n2 a b = Ok r
         <-> quantity a /\ numeric b /\ ~ is_negative b /\ ~ is_zero b
             /\ py_truediv a b = Ok r).
Proof.
  unfold validated_quotient, quantity.
  destruct (numeric_dec a) as [Na | Na].
  2:{ rewrite (validate_type _ n1 true Na). cbn [bind TypeKind RangeKind].
      split; [tauto | split; [tauto |]].
      intros r. split; [discriminate | tauto]. }
  destruct (is_negative_dec a) as [La | Pa].
  { pose proof (validate_negative_range a n1 true Na La) as R.
    destruct (LittlesLaw._validate_input a n1 true) as [[] | []];
      try destruct R.
    cbn [bind TypeKind RangeKind].
    split; [tauto | split; [tauto |]].
    intros r. split; [discriminate | tauto]. }
  rewrite (validate_pass _ n1 true Na Pa (or_introl eq_refl)). cbn [bind].
  destruct (numeric_dec b) as [Nb | Nb].
  2:{ rewrite (validate_type _ n2 false Nb). cbn [bind TypeKind RangeKind].
      split; [tauto | split; [tauto |]].
      intros r. split; [discriminate | tauto]. }
  destruct (is_negative_dec b) as [Lb | Pb].
  { pose proof (validate_negative_range b n2 false Nb Lb) as R.
    destruct (LittlesLaw._validate_input b n2 false) as [[] | []];
      try destruct R.
    cbn [bind TypeKind RangeKind].
    split; [tauto | split; [tauto |]].
    intros r. split; [discriminate | tauto]. }
  destruct (is_zero_dec b) as [Zb | Zb].
  { rewrite (validate_zero _ n2 false Nb Zb eq_refl).
    cbn [bind TypeKind RangeKind].
    split; [tauto | split; [tauto |]].
    intros r. split; [discriminate | tauto]. }
  rewrite (validate_pass _ n2 false Nb Pb (or_intror Zb)). cbn [bind].
  destruct (py_truediv_numeric a b Na Nb Zb) as [[q E] | O].
  - rewrite E. cbn [TypeKind RangeKind].
    split; [tauto | split; [tauto |]]. intros r. tauto.
  - destruct (py_truediv a b) as [| []]; try destruct O.
    cbn [TypeKind RangeKind].
    split; [tauto | split; [tauto |]]. intros r. tauto.
Qed.

(** X13. [calculate_cycle_time], [calculate_throughput] and
    [financial_cycle_time] have the same outcome on every pair of
    arguments: the same result, or an error of the same kind; only the
    parameter names in the messages differ. *)
Theorem dividing_operations_agree (a b : value) :
  (forall r,
      (LittlesLaw.calculate_cycle_time a b = Ok r
       <-> LittlesLaw.calculate_throughput a b = Ok r)
      /\ (LittlesLaw.calculate_cycle_time a b = Ok r
          <-> LittlesLaw.financial_cycle_time a b = Ok r))
  /\ (TypeKind (LittlesLaw.calculate_cycle_time a b)
      <-> TypeKind (LittlesLaw.calculate_throughput a b))
  /\ (TypeKind (LittlesLaw.calculate_cycle_time a b)
      <-> TypeKind (LittlesLaw.financial_cycle_time a b))
  /\ (RangeKind (LittlesLaw.calculate_cycle_time a b)
      <-> RangeKind (LittlesLaw.calculate_throughput a b))
  /\ (RangeKind (LittlesLaw.calculate_cycle_time a b)
      <-> RangeKind (LittlesLaw.financial_cycle_time a b)).
Proof.
  change (LittlesLaw.calculate_cycle_time a b)
    with (validated_quotient "wip" "throughput" a b).
  change (LittlesLaw.calculate_throughput a b)
    with (validated_quotient "wip" "cycle_time" a b).
  change (LittlesLaw.financial_cycle_time a b)
    with (validated_quotient "wip_value" "cost_of_goods_sold" a b).
  destruct (validated_quotient_outcome "wip" "throughput" a b)
    as [T1 [R1 O1]].
  destruct (validated_quotient_outcome "wip" "cycle_time" a b)
    as [T2 [R2 O2]].
  destruct (validated_quotient_outcome "wip_value" "cost_of_goods_sold" a b)
    as [T3 [R3 O3]].
  split; [| tauto].
  intros r. specialize (O1 r). specialize (O2 r). specialize (O3 r). tauto.
Qed.

(** ** Types of the results *)

(** X11. Types of the results: the operations that divide return a float
    also for integer arguments, and [calculate_wip] returns an int exactly
    when both arguments are ints (or bools). *)
Theorem result_types (a b : value) :
  (forall r,
      LittlesLaw.calculate_cycle_time a b = Ok r
      \/ LittlesLaw.calculate_throughput a b = Ok r
      \/ LittlesLaw.financial_cycle_time a b = Ok r ->
      type_of r = Tfloat)
  /\ (forall throughput r,
         LittlesLaw.calculate_inventory_turns throughput a b = Ok r ->
         type_of r = Tfloat)
  /\ (forall r,
         LittlesLaw.calculate_wip a b = Ok r ->
         (type_of r = Tint
          <-> isinstance a [Tint] = true /\ isinstance b [Tint] = true)
         /\ (type_of r = Tfloat
             <-> type_of a = Tfloat \/ type_of b = Tfloat)).
Proof.
  split; [| split].
  - intros r R.
    assert (D : py_truediv a b = Ok r).
    { destruct R as [R | [R | R]].
      - now apply (validated_quotient_outcome "wip" "throughput" a b).
      - now apply (validated_quotient_outcome "wip" "cycle_time" a b).
      - now apply
          (validated_quotient_outcome "wip_value" "cost_of_goods_sold" a b). }
    destruct (py_truediv_float _ _ _ D) as [q ->]. reflexivity.
  - intros t r R.
    pose proof (run_ok_valid (CalculateInventoryTurns t a b) r R) as V.
    cbn [quantities] in V. use_validity.
    rewrite calculate_inventory_turns_passes in R by assumption.
    destruct (py_add a b) as [total |]; [| discriminate R].
    cbn [bind] in R. destruct (py_eq total (VInt 0)); [discriminate R |].
    destruct (py_truediv_float _ _ _ R) as [q ->]. reflexivity.
  - intros r R.
    pose proof (run_ok_valid (CalculateWip a b) r R) as V.
    cbn [quantities] in V. use_validity.
    rewrite calculate_wip_passes in R by assumption.
    unfold py_mul in R.
    destruct a; try (exfalso; now apply (proj1 H1));
      destruct b; try (exfalso; now apply (proj1 H2)); cbn in R;
      repeat match type of R with
        | context [match ?x with _ => _ end] => destruct x; cbn in R
        end;
      try discriminate R; apply Ok_inj in R; subst r; cbn;
      repeat split; intros; try discriminate; try tauto;
      repeat match goal with
        | H : _ /\ _ |- _ => destruct H
        | H : _ \/ _ |- _ => destruct H
        end; try discriminate; auto.
Qed.

Lemma result_types_witness :
  LittlesLaw.calculate_cycle_time (VInt 20) (VInt 5) = Ok (VFloat float_4)
  /\ type_of (VFloat float_4) = Tfloat.
Proof.
  assert (H : LittlesLaw.calculate_cycle_time (VInt 20) (VInt 5)
              = Ok (VFloat float_4)) by (vm_compute; reflexivity).
  split; [exact H |].
  exact (proj1 (result_types (VInt 20) (VInt 5)) (VFloat float_4)
           (or_introl H)).
Defined.

(** ** The remaining formulas *)

(** X2. [calculate_cycle_time]: for a wip that is a Quantity and a numeric
    throughput, the call is Python's [wip / throughput], a float or an
    OverflowError, when the throughput is neither negative nor zero (a
    number > 0, or a NaN), and it fails with a RangeKind error when the
    throughput is zero or negative. *)
Theorem calculate_cycle_time_result (wip throughput : value) :
  quantity wip -> numeric throughput ->
  (~ is_negative throughput -> ~ is_zero throughput ->
   LittlesLaw.calculate_cycle_time wip throughput = py_truediv wip throughput
   /\ ((exists q, py_truediv wip throughput = Ok (VFloat q))
       \/ Overflows (py_truediv wip throughput)))
  /\ (is_negative throughput \/ is_zero throughput ->
      RangeKind (LittlesLaw.calculate_cycle_time wip throughput)).
Proof.
  intros Qw Nt. split.
  - intros Pt Zt.
    rewrite (calculate_cycle_time_passes _ _ Qw (conj Nt Pt) Zt).
    split; [reflexivity |]. apply py_truediv_numeric; trivial. apply Qw.
  - intros H. apply (validated_quotient_outcome "wip" "throughput").
    right. tauto.
Qed.

Lemma calculate_cycle_time_result_witness :
  (quantity (VInt 20) /\ numeric (VFloat float_0_25)
   /\ ~ is_negative (VFloat float_0_25) /\ ~ is_zero (VFloat float_0_25))
  /\ LittlesLaw.calculate_cycle_time (VInt 20) (VFloat float_0_25)
     = py_truediv (VInt 20) (VFloat float_0_25).
Proof.
  assert (H1 : quantity (VInt 20))
    by (split; [reflexivity | intros H; vm_compute in H; discriminate H]).
  assert (H2 : numeric (VFloat float_0_25)) by reflexivity.
  assert (H3 : ~ is_negative (VFloat float_0_25))
    by (intros H; vm_compute in H; discriminate H).
  assert (H4 : ~ is_zero (VFloat float_0_25))
    by (intros H; vm_compute in H; discriminate H).
  split; [now repeat split |].
  exact (proj1 (proj1 (calculate_cycle_time_result
                         (VInt 20) (VFloat float_0_25) H1 H2) H3 H4)).
Defined.

(** X3. [calculate_throughput]: for a wip that is a Quantity and a numeric
    cycle time, the call is Python's [wip / cycle_time], a float or an
    OverflowError, when the cycle time is neither negative nor zero, and it
    fails with a RangeKind error when the cycle time is zero or negative. *)
Theorem calculate_throughput_result (wip cycle_time : value) :
  quantity wip -> numeric cycle_time ->
  (~ is_negative cycle_time -> ~ is_zero cycle_time ->
   LittlesLaw.calculate_throughput wip cycle_time = py_truediv wip cycle_time
   /\ ((exists q, py_truediv wip cycle_time = Ok (VFloat q))
       \/ Overflows (py_truediv wip cycle_time)))
  /\ (is_negative cycle_time \/ is_zero cycle_time ->
      RangeKind (LittlesLaw.calculate_throughput wip cycle_time)).
Proof.
  intros Qw Nc. split.
  - intros Pc Zc.
    rewrite (calculate_throughput_passes _ _ Qw (conj Nc Pc) Zc).
    split; [reflexivity |]. apply py_truediv_numeric; trivial. apply Qw.
  - intros H. apply (validated_quotient_outcome "wip" "cycle_time").
    right. tauto.
Qed.

Lemma calculate_throughput_result_witness :
  (quantity (VFloat float_2_5) /\ numeric (VInt 0)
   /\ (is_negative (VInt 0) \/ is_zero (VInt 0)))
  /\ RangeKind (LittlesLaw.calculate_throughput (VFloat float_2_5) (VInt 0)).
Proof.
  assert (H1 : quantity (VFloat float_2_5))
    by (split; [reflexivity | intros H; vm_compute in H; discriminate H]).
  assert (H2 : numeric (VInt 0)) by reflexivity.
  assert (H3 : is_negative (VInt 0) \/ is_zero (VInt 0))
    by (right; vm_compute; reflexivity).
  split; [now repeat split |].
  exact (proj2 (calculate_throughput_result
                  (VFloat float_2_5) (VInt 0) H1 H2) H3).
Defined.

Lemma fmul_comm (x y : spec_float) : fmul x y = fmul y x.
Proof.
  destruct x as [sx | sx | | sx mx ex], y as [sy | sy | | sy my ey];
    unfold fmul, SFmul;
    rewrite ?(xorb_comm sx sy), ?(Pos.mul_comm mx my), ?(Z.add_comm ex ey);
    reflexivity.
Qed.

(** The product of two numbers does not depend on the order of the
    operands. *)
Lemma py_mul_comm (a b : value) :
  numeric a -> numeric b -> py_mul a b = py_mul b a.
Proof.
  intros [n Ea]%numeric_as_num [m Eb]%numeric_as_num.
  unfold py_mul. rewrite Ea, Eb.
  destruct n as [x | fa], m as [y | fb]; cbn [to_float bind].
  - now rewrite Z.mul_comm.
  - destruct (nearest_double x); cbn [bind]; trivial;
      now rewrite fmul_comm.
  - destruct (nearest_double y); cbn [bind]; trivial;
      now rewrite fmul_comm.
  - now rewrite fmul_comm.
Qed.

(** X4. [calculate_planned_inventory], for a throughput and planned days
    that are Quantities, is Python's product [planned_days * throughput]:
    a number, or an OverflowError of the conversion of an int to float;
    it is the outcome of [calculate_wip] on the same two arguments. *)
Theorem calculate_planned_inventory_result (throughput planned_days : value) :
  quantity throughput -> quantity planned_days ->
  LittlesLaw.calculate_planned_inventory throughput planned_days
  = py_mul planned_days throughput
  /\ LittlesLaw.calculate_planned_inventory throughput planned_days
     = LittlesLaw.calculate_wip throughput planned_days
  /\ ((exists r,
          LittlesLaw.calculate_planned_inventory throughput planned_days
          = Ok r /\ numeric r)
      \/ LittlesLaw.calculate_planned_inventory throughput planned_days
         = Raise (OverflowError [Lit "int too large to convert to float"])).
Proof.
  intros Qt Qd.
  rewrite (calculate_planned_inventory_passes _ _ Qt Qd).
  rewrite (calculate_wip_passes _ _ Qt Qd).
  split; [reflexivity |].
  split; [apply py_mul_comm; [apply Qd | apply Qt] |].
  apply py_mul_numeric; [apply Qd | apply Qt].
Qed.

Lemma calculate_planned_inventory_result_witness :
  (quantity (VFloat float_2_5) /\ quantity (VInt 4))
  /\ LittlesLaw.calculate_planned_inventory (VFloat float_2_5) (VInt 4)
     = LittlesLaw.calculate_wip (VFloat float_2_5) (VInt 4).
Proof.
  assert (H1 : quantity (VFloat float_2_5))
    by (split; [reflexivity | intros H; vm_compute in H; discriminate H]).
  assert (H2 : quantity (VInt 4))
    by (split; [reflexivity | intros H; vm_compute in H; discriminate H]).
  split; [now split |].
  exact (proj1 (proj2 (calculate_planned_inventory_result
                         (VFloat float_2_5) (VInt 4) H1 H2))).
Defined.

(** ** When a call returns *)

(** An invalid Quantity argument makes a call fail with a TypeKind or a
    RangeKind error. *)
Lemma run_invalid (c : call) :
  ~ Forall valid (quantities c) -> TypeKind (run c) \/ RangeKind (run c).
Proof.
  intros H. destruct (validate_all (quantities c)) as [[] | e] eqn:V.
  - destruct H. now apply validate_all_valid.
  - rewrite (run_validation_failure c e V).
    destruct (validate_all_fails _ _ V) as [before [[[n z] v] [after [_ [_ F]]]]].
    destruct (validate_failure v n z e F)
      as [[_ ->] | [[_ [_ [_ ->]]] | [[_ [_ [_ ->]]] | [_ [_ [_ ->]]]]]];
      cbn; auto.
Qed.

(** X8. When a call returns.  A call of one of the seven operations returns
    a result only if every Quantity argument passes the validator (with
    zero forbidden for the three divisors) and neither later check fails
    (the machine count is an int >= 1, wip + fgi is not zero); under these
    conditions it returns a result or raises OverflowError; and when a
    Quantity argument does not pass the validator it fails with a TypeKind
    or a RangeKind error. *)
Theorem run_returns (c : call) :
  (forall r,
      run c = Ok r ->
      Forall valid (quantities c) /\ forall e, ~ late_failure c e)
  /\ (Forall valid (quantities c) -> (forall e, ~ late_failure c e) ->
      (exists r, run c = Ok r) \/ Overflows (run c))
  /\ (~ Forall valid (quantities c) -> TypeKind (run c) \/ RangeKind (run c)).
Proof.
  split; [| split].
  - intros r R. pose proof (run_ok_valid c r R) as V.
    split; [exact V |]. intros e L.
    rewrite (late_failure_raises c e V L) in R. discriminate R.
  - intros V L. destruct (run_after_validation c V) as [R | [[e [_ F]] | O]];
      auto. destruct (L e F).
  - apply run_invalid.
Qed.

Lemma run_returns_witness :
  run (CalculateStationUtilization (VInt 10) (VInt 2) (VInt 5))
  = Ok (VDict [("station_wip", VInt 20); ("utilization", VFloat float_4);
               ("utilization_pct", VFloat float_400)])
  /\ Forall valid
       (quantities (CalculateStationUtilization (VInt 10) (VInt 2) (VInt 5)))
  /\ forall e,
      ~ late_failure
          (CalculateStationUtilization (VInt 10) (VInt 2) (VInt 5)) e.
Proof.
  assert (H : run (CalculateStationUtilization (VInt 10) (VInt 2) (VInt 5))
              = Ok (VDict [("station_wip", VInt 20);
                           ("utilization", VFloat float_4);
                           ("utilization_pct", VFloat float_400)]))
    by (vm_compute; reflexivity).
  split; [exact H |].
  exact (proj1 (run_returns
                  (CalculateStationUtilization (VInt 10) (VInt 2) (VInt 5)))
           _ H).
Defined.

(** ** Results are not negative *)

Lemma scale_negative (m : positive) (e : Z) :
  Qcompare (scale (Zneg m) e) (inject_Z 0) = Lt.
Proof.
  unfold scale, Qcompare. destruct e as [| p | p]; cbn [Qnum Qden inject_Z];
    apply Z.compare_lt_iff.
  - rewrite Z.pow_0_r. lia.
  - assert (0 < 2 ^ Zpos p) by (apply Z.pow_pos_nonneg; lia). nia.
  - lia.
Qed.

Lemma scale_positive (m : positive) (e : Z) :
  Qcompare (scale (Zpos m) e) (inject_Z 0) = Gt.
Proof.
  unfold scale, Qcompare. destruct e as [| p | p]; cbn [Qnum Qden inject_Z];
    apply Z.compare_gt_iff.
  - rewrite Z.pow_0_r. lia.
  - assert (0 < 2 ^ Zpos p) by (apply Z.pow_pos_nonneg; lia). nia.
  - lia.
Qed.

Lemma not_negative_float (f : spec_float) :
  ~ is_negative (VFloat f) <-> sign_clear f.
Proof.
  unfold is_negative, compare_int. cbn [as_num num_X].
  destruct f as [s | [|] | | [|] m e]; cbn [SF2X xcompare sign_clear];
    rewrite ?scale_negative, ?scale_positive;
    split; trivial; try discriminate; try tauto; intros H; now destruct H.
Qed.

Lemma quantity_num (v : value) :
  quantity v <-> exists n, as_num v = Some n /\ not_negative_num n.
Proof.
  unfold quantity. split.
  - intros [[[z [I E]] | [f ->]]%numeric_cases P].
    + exists (NInt z). split; [exact E |]. cbn.
      unfold is_negative in P. rewrite (compare_int_int v z 0 I) in P.
      destruct (Z.compare_spec z 0); try lia. now destruct P.
    + exists (NFloat f). split; [reflexivity |]. now apply not_negative_float.
  - intros [n [E P]].
    assert (N : numeric v) by (apply numeric_as_num; eauto).
    split; [exact N |].
    destruct (numeric_cases v N) as [[z [I E']] | [f ->]].
    + rewrite E in E'. injection E' as ->. cbn in P.
      unfold is_negative. rewrite (compare_int_int v z 0 I).
      destruct (Z.compare_spec z 0); try lia; discriminate.
    + injection E as <-. now apply not_negative_float.
Qed.

Lemma binary_round_aux_sign_clear (m e : Z) (l : location) :
  sign_clear (binary_round_aux prec emax false m e l).
Proof.
  pose proof (binary_round_aux_sign false m e l) as H.
  destruct (binary_round_aux prec emax false m e l) as [s | s | | s ? ?];
    cbn; trivial; now subst s.
Qed.

Lemma binary_normalize_sign_clear (m e : Z) :
  0 <= m -> sign_clear (binary_normalize prec emax m e false).
Proof.
  intros P. destruct m as [| p | p]; try lia; cbn [binary_normalize]; [exact I |].
  unfold binary_round. destruct (shl_align _ _ _).
  apply binary_round_aux_sign_clear.
Qed.

Lemma fmul_sign_clear (x y : spec_float) :
  sign_clear x -> sign_clear y -> sign_clear (fmul x y).
Proof.
  destruct x as [sx | [|] | | [|] mx ex], y as [sy | [|] | | [|] my ey];
    cbn [sign_clear]; try tauto; intros _ _;
    unfold fmul, SFmul; cbn [xorb sign_clear]; trivial;
    apply binary_round_aux_sign_clear.
Qed.

Lemma fdiv_sign_clear (x y : spec_float) :
  sign_clear x -> sign_clear y -> float_is_zero y = false ->
  sign_clear (fdiv x y).
Proof.
  destruct x as [sx | [|] | | [|] mx ex], y as [sy | [|] | | [|] my ey];
    cbn [sign_clear float_is_zero]; try tauto; try discriminate; intros _ _ _;
    unfold fdiv, SFdiv; cbn [xorb sign_clear]; trivial.
  destruct (SFdiv_core_binary _ _ _ _ _ _) as [[mz ez] lz].
  apply binary_round_aux_sign_clear.
Qed.

Lemma fadd_sign_clear (x y : spec_float) :
  sign_clear x -> sign_clear y -> sign_clear (fadd x y).
Proof.
  destruct x as [[|] | [|] | | [|] mx ex], y as [[|] | [|] | | [|] my ey];
    cbn [sign_clear]; try tauto; intros _ _;
    unfold fadd, SFadd; cbn [sign_clear]; trivial.
  cbn [cond_Zopp]. apply binary_normalize_sign_clear. lia.
Qed.

Lemma to_float_sign_clear (n : num) (f : spec_float) :
  not_negative_num n -> to_float n = Ok f -> sign_clear f.
Proof.
  destruct n as [z | g]; cbn [not_negative_num to_float].
  - intros P E.
    pose proof (binary_normalize_sign_clear z 0 P) as S.
    fold (nearest_double z) in S.
    destruct (nearest_double z); try discriminate E;
      apply Ok_inj in E; now subst f.
  - intros P E. apply Ok_inj in E. now subst f.
Qed.

Lemma Z2SF_sign_clear (z : Z) : 0 <= z -> sign_clear (Z2SF z).
Proof. destruct z; try lia; intros _; exact I. Qed.

Lemma Z2SF_nonzero (z : Z) : z <> 0 -> float_is_zero (Z2SF z) = false.
Proof. destruct z; try lia; reflexivity. Qed.

Lemma py_mul_quantity (a b r : value) :
  quantity a -> quantity b -> py_mul a b = Ok r -> quantity r.
Proof.
  intros [n [Ea Pa]]%quantity_num [m [Eb Pb]]%quantity_num R.
  apply quantity_num. unfold py_mul in R. rewrite Ea, Eb in R.
  destruct n as [x | fa], m as [y | fb]; cbn [bind] in R.
  - apply Ok_inj in R. subst r. exists (NInt (x * y)).
    split; [reflexivity |]. cbn in *. nia.
  - destruct (to_float (NInt x)) as [fx |] eqn:Ex;
      cbn [to_float bind] in R; [| discriminate R]. apply Ok_inj in R. subst r.
    eexists. split; [reflexivity |]. cbn [not_negative_num].
    apply fmul_sign_clear; [now apply (to_float_sign_clear (NInt x)) | exact Pb].
  - change (to_float (NFloat fa)) with (Ok fa) in R. cbn [bind] in R.
    destruct (to_float (NInt y)) as [fy |] eqn:Ey;
      cbn [bind] in R; [| discriminate R]. apply Ok_inj in R. subst r.
    eexists. split; [reflexivity |]. cbn [not_negative_num].
    apply fmul_sign_clear; [exact Pa | now apply (to_float_sign_clear (NInt y))].
  - cbn [to_float bind] in R. apply Ok_inj in R. subst r.
    eexists. split; [reflexivity |]. now apply fmul_sign_clear.
Qed.

Lemma py_add_quantity (a b r : value) :
  quantity a -> quantity b -> py_add a b = Ok r -> quantity r.
Proof.
  intros [n [Ea Pa]]%quantity_num [m [Eb Pb]]%quantity_num R.
  apply quantity_num. unfold py_add in R. rewrite Ea, Eb in R.
  destruct n as [x | fa], m as [y | fb]; cbn [bind] in R.
  - apply Ok_inj in R. subst r. exists (NInt (x + y)).
    split; [reflexivity |]. cbn in *. lia.
  - destruct (to_float (NInt x)) as [fx |] eqn:Ex;
      cbn [to_float bind] in R; [| discriminate R]. apply Ok_inj in R. subst r.
    eexists. split; [reflexivity |]. cbn [not_negative_num].
    apply fadd_sign_clear; [now apply (to_float_sign_clear (NInt x)) | exact Pb].
  - change (to_float (NFloat fa)) with (Ok fa) in R. cbn [bind] in R.
    destruct (to_float (NInt y)) as [fy |] eqn:Ey;
      cbn [bind] in R; [| discriminate R]. apply Ok_inj in R. subst r.
    eexists. split; [reflexivity |]. cbn [not_negative_num].
    apply fadd_sign_clear; [exact Pa | now apply (to_float_sign_clear (NInt y))].
  - cbn [to_float bind] in R. apply Ok_inj in R. subst r.
    eexists. split; [reflexivity |]. now apply fadd_sign_clear.
Qed.

Lemma py_truediv_quantity (a b r : value) :
  quantity a -> quantity b -> py_truediv a b = Ok r -> quantity r.
Proof.
  intros [n [Ea Pa]]%quantity_num [m [Eb Pb]]%quantity_num R.
  apply quantity_num. unfold py_truediv in R. rewrite Ea, Eb in R.
  destruct n as [x | fa], m as [y | fb]; cbn [bind] in R.
  - destruct (Z.eqb_spec y 0) as [| Ny]; [discriminate R |].
    cbn in Pa, Pb.
    pose proof (fdiv_sign_clear _ _ (Z2SF_sign_clear x Pa)
                  (Z2SF_sign_clear y Pb) (Z2SF_nonzero y Ny)) as S.
    destruct (fdiv (Z2SF x) (Z2SF y)) eqn:D; try discriminate R;
      apply Ok_inj in R; subst r; eexists; (split; [reflexivity | exact S]).
  - destruct (to_float (NInt x)) as [fx |] eqn:Ex;
      cbn [to_float bind] in R; [| discriminate R].
    destruct (float_is_zero fb) eqn:Zb; [discriminate R |].
    apply Ok_inj in R. subst r.
    eexists. split; [reflexivity |]. cbn [not_negative_num].
    apply fdiv_sign_clear; trivial. now apply (to_float_sign_clear (NInt x)).
  - change (to_float (NFloat fa)) with (Ok fa) in R. cbn [bind] in R.
    destruct (to_float (NInt y)) as [fy |] eqn:Ey;
      cbn [bind] in R; [| discriminate R].
    destruct (float_is_zero fy) eqn:Zy; [discriminate R |].
    apply Ok_inj in R. subst r.
    eexists. split; [reflexivity |]. cbn [not_negative_num].
    apply fdiv_sign_clear; trivial. now apply (to_float_sign_clear (NInt y)).
  - cbn [to_float bind] in R.
    destruct (float_is_zero fb) eqn:Zb; [discriminate R |].
    apply Ok_inj in R. subst r.
    eexists. split; [reflexivity |]. now apply fdiv_sign_clear.
Qed.

Lemma machine_count_quantity (m : value) : machine_count m -> quantity m.
Proof.
  intros [z [I P]]. split; [exact (int_is_numeric m z I) |].
  unfold is_negative. rewrite (compare_int_int m z 0 I).
  destruct (Z.compare_spec z 0); try lia; discriminate.
Qed.

(** X7. Results are Quantities again: whatever the arguments, a number
    returned by a call is an int or a float that is not negative, so it
    passes the validator of any zero-allowed parameter; the dictionary of
    [calculate_station_utilization] has the keys station_wip, utilization
    and utilization_pct, in that order, each with such a number. *)
Theorem results_are_quantities (c : call) (r : value) :
  run c = Ok r ->
  match c with
  | CalculateStationUtilization _ _ _ =>
      exists station_wip utilization utilization_pct,
        r = VDict [("station_wip", station_wip);
                   ("utilization", utilization);
                   ("utilization_pct", utilization_pct)]
        /\ quantity station_wip /\ quantity utilization
        /\ quantity utilization_pct
  | _ => quantity r
  end.
Proof.
  intros R. pose proof (run_ok_valid c r R) as V.
  destruct c; cbn [quantities] in V; use_validity; cbn [run] in R.
  - rewrite calculate_wip_passes in R by assumption.
    now apply (py_mul_quantity throughput cycle_time).
  - rewrite calculate_cycle_time_passes in R by assumption.
    now apply (py_truediv_quantity wip throughput).
  - rewrite calculate_throughput_passes in R by assumption.
    now apply (py_truediv_quantity wip cycle_time).
  - destruct (machine_count_dec number_of_machines) as [M | M].
    2:{ rewrite calculate_station_utilization_rejects in R by assumption.
        discriminate R. }
    rewrite calculate_station_utilization_passes in R by assumption.
    destruct (py_mul _ _) as [w |] eqn:W; [| discriminate R].
    cbn [bind] in R.
    destruct (py_truediv w _) as [u |] eqn:U; [| discriminate R].
    cbn [bind] in R.
    destruct (py_mul u _) as [p |] eqn:P; [| discriminate R].
    cbn [bind] in R. apply Ok_inj in R. subst r.
    assert (Qw : quantity w)
      by now apply (py_mul_quantity station_throughput station_cycle_time).
    assert (Qu : quantity u).
    { apply (py_truediv_quantity w number_of_machines); trivial.
      now apply machine_count_quantity. }
    assert (Qp : quantity p).
    { apply (py_mul_quantity u (VInt 100)); trivial.
      split; [reflexivity | intros N; vm_compute in N; discriminate N]. }
    exists w, u, p. auto.
  - rewrite calculate_inventory_turns_passes in R by assumption.
    destruct (py_add _ _) as [total |] eqn:A; [| discriminate R].
    cbn [bind] in R. destruct (py_eq total (VInt 0)); [discriminate R |].
    apply (py_truediv_quantity throughput total); trivial.
    now apply (py_add_quantity wip fgi).
  - rewrite calculate_planned_inventory_passes in R by assumption.
    now apply (py_mul_quantity planned_days throughput).
  - rewrite financial_cycle_time_passes in R by assumption.
    now apply (py_truediv_quantity wip_value cost_of_goods_sold).
Qed.

Lemma results_are_quantities_witness :
  run (CalculateInventoryTurns (VInt 10) (VFloat float_1_5) (VBool true))
  = Ok (VFloat float_4)
  /\ quantity (VFloat float_4).
Proof.
  assert (H : run (CalculateInventoryTurns
                     (VInt 10) (VFloat float_1_5) (VBool true))
              = Ok (VFloat float_4)) by (vm_compute; reflexivity).
  split; [exact H |].
  exact (results_are_quantities
           (CalculateInventoryTurns (VInt 10) (VFloat float_1_5) (VBool true))
           (VFloat float_4) H).
Defined.

(** ** Exact round trip through the throughput *)

(** X5. The round trip through the throughput is exact on integers: for an
    int throughput with 0 <= throughput < 2^53 and an int cycle time > 0,
    [calculate_wip] returns the exact product and [calculate_throughput] of
    that product and the cycle time returns a float that compares equal
    ([==]) to the throughput. *)
Theorem wip_throughput_round_trip (throughput cycle_time : Z) :
  0 <= throughput < 2 ^ 53 -> 0 < cycle_time ->
  LittlesLaw.calculate_wip (VInt throughput) (VInt cycle_time)
  = Ok (VInt (throughput * cycle_time))
  /\ exists th,
      LittlesLaw.calculate_throughput
        (VInt (throughput * cycle_time)) (VInt cycle_time) = Ok th
      /\ py_eq th (VInt throughput) = true.
Proof.
  intros [Pt Bt] Pc.
  assert (Q : forall z, 0 <= z -> quantity (VInt z)).
  { intros z Pz. apply quantity_num. exists (NInt z). now split. }
  assert (NZ : ~ is_zero (VInt cycle_time)).
  { intros Z. apply (is_zero_int (VInt cycle_time) cycle_time eq_refl) in Z.
    lia. }
  split.
  - rewrite calculate_wip_passes by (apply Q; lia). reflexivity.
  - rewrite calculate_throughput_passes by (trivial; apply Q; nia).
    destruct cycle_time as [| c | c]; try lia.
    unfold py_truediv. cbn [as_num]. change (Zpos c =? 0) with false.
    cbv iota.
    destruct throughput as [| t | t]; try lia.
    + eexists. split; reflexivity.
    + rewrite Z.mul_comm, (fdiv_exact c t Bt).
      eexists. split; [reflexivity |].
      apply py_eq_exact; [lia |].
      assert (Z.log2 (Zpos t) < 53) by (apply Z.log2_lt_pow2; lia).
      rewrite Zdigits2_log2. lia.
Qed.

Lemma wip_throughput_round_trip_witness :
  (0 <= 12 < 2 ^ 53 /\ 0 < 7)
  /\ LittlesLaw.calculate_wip (VInt 12) (VInt 7) = Ok (VInt (12 * 7))
  /\ exists th,
      LittlesLaw.calculate_throughput (VInt (12 * 7)) (VInt 7) = Ok th
      /\ py_eq th (VInt 12) = true.
Proof.
  assert (H1 : 0 <= 12 < 2 ^ 53) by (split; [lia | reflexivity]).
  assert (H2 : 0 < 7) by lia.
  split; [now split |].
  exact (wip_throughput_round_trip 12 7 H1 H2).
Defined.

(** ** Special values *)

Lemma fdiv_nan (x : spec_float) : fdiv x S754_nan = S754_nan.
Proof. destruct x; reflexivity. Qed.

(** X14. Floats that are not ordinary numbers.  A NaN and plus infinity
    pass the validator, a NaN also where zero is forbidden; minus infinity
    is rejected as negative; a float zero of either sign is rejected where
    zero is forbidden and passes elsewhere.  So [calculate_cycle_time]
    with a NaN throughput returns a NaN for every float wip that is not
    negative. *)
Theorem special_floats_validation (name : string) (allow_zero : bool) :
  LittlesLaw._validate_input (VFloat S754_nan) name allow_zero = Ok tt
  /\ LittlesLaw._validate_input (VFloat (S754_infinity false)) name allow_zero
     = Ok tt
  /\ LittlesLaw._validate_input (VFloat (S754_infinity true)) name allow_zero
     = Raise (ValueError [Lit "Invalid value for '"; Fmt (VStr name);
                          Lit "'. Value cannot be negative (";
                          Fmt (VFloat (S754_infinity true)); Lit ")."])
  /\ (forall s,
         LittlesLaw._validate_input (VFloat (S754_zero s)) name false
         = Raise (ValueError
                    [Lit "Invalid value for '"; Fmt (VStr name);
                     Lit "'. Value cannot be zero (dividing by zero)."])
         /\ LittlesLaw._validate_input (VFloat (S754_zero s)) name true
            = Ok tt)
  /\ (forall wip,
         quantity (VFloat wip) ->
         LittlesLaw.calculate_cycle_time (VFloat wip) (VFloat S754_nan)
         = Ok (VFloat S754_nan)).
Proof.
  repeat split; try (destruct allow_zero; reflexivity).
  intros wip Qw.
  rewrite calculate_cycle_time_passes; trivial.
  - unfold py_truediv. cbn [as_num to_float bind float_is_zero].
    now rewrite fdiv_nan.
  - split; [reflexivity | intros H; discriminate H].
  - intros H; discriminate H.
Qed.

Lemma special_floats_validation_witness :
  quantity (VFloat float_2_5)
  /\ LittlesLaw.calculate_cycle_time (VFloat float_2_5) (VFloat S754_nan)
     = Ok (VFloat S754_nan).
Proof.
  assert (H : quantity (VFloat float_2_5))
    by (split; [reflexivity | intros N; vm_compute in N; discriminate N]).
  split; [exact H |].
  exact (proj2 (proj2 (proj2 (proj2
           (special_floats_validation "wip" true)))) float_2_5 H).
Defined.

(** X15. Integers too long to be shown.  A negative int of more than 4300
    digits as the first argument makes every operation fail with the
    ValueError of the conversion of the int to text (a RangeKind error),
    not with the message of the validator; a negative int of at most 4300
    digits gives the validator's message with the value. *)
Theorem negative_int_beyond_digits (c : call) (name : string)
  (allow_zero : bool) (z : Z) (after : list (string * bool * value)) :
  quantities c = (name, allow_zero, VInt z) :: after -> z < 0 ->
  (z <= - int_str_bound -> run c = Raise digits_limit)
  /\ (- int_str_bound < z ->
      run c
      = Raise (ValueError [Lit "Invalid value for '"; Fmt (VStr name);
                           Lit "'. Value cannot be negative (";
                           Fmt (VInt z); Lit ")."])).
Proof.
  intros E L.
  assert (N : numeric (VInt z)) by reflexivity.
  assert (G : is_negative (VInt z)).
  { unfold is_negative. rewrite (compare_int_int (VInt z) z 0 eq_refl).
    now apply f_equal, Z.compare_lt_iff. }
  split; intros B; apply run_validation_failure; rewrite E;
    cbn [validate_all validate].
  - rewrite (validate_negative_digits (VInt z) name allow_zero N G);
      [reflexivity |].
    cbn [convertible]. apply Z.ltb_ge. lia.
  - rewrite (validate_negative_shown (VInt z) name allow_zero N G);
      [reflexivity |].
    cbn [convertible]. apply Z.ltb_lt. lia.
Qed.

Lemma negative_int_beyond_digits_witness :
  (quantities (CalculateWip (VInt (- 10 ^ 4300)) (VInt 1))
   = [("throughput", true, VInt (- 10 ^ 4300));
      ("cycle_time", true, VInt 1)]
   /\ - 10 ^ 4300 < 0 /\ - 10 ^ 4300 <= - int_str_bound)
  /\ run (CalculateWip (VInt (- 10 ^ 4300)) (VInt 1)) = Raise digits_limit.
Proof.
  assert (H1 : quantities (CalculateWip (VInt (- 10 ^ 4300)) (VInt 1))
               = [("throughput", true, VInt (- 10 ^ 4300));
                  ("cycle_time", true, VInt 1)]) by reflexivity.
  assert (H2 : - 10 ^ 4300 < 0) by reflexivity.
  assert (H3 : - 10 ^ 4300 <= - int_str_bound)
    by (unfold int_str_bound, int_max_str_digits; lia).
  split; [now repeat split |].
  exact (proj1 (negative_int_beyond_digits _ _ _ _ _ H1 H2) H3).
Defined.
